(** * Adaptive quiz: selector, session state machine and response log

    A shallow embedding of [src/app.py] (a Streamlit script) and the
    properties of its adaptive difficulty selection, its quiz session
    state and its CSV response log.

    Conventions of the embedding:
    - Python [int] is [Z]; Python [float] probabilities are embedded in
      [Q] (every finite binary64 is a rational and [<] agrees);
    - Python [str] is [string];
    - a raised exception is the [Raise] branch of [result];
    - [st.session_state] is the record [SessionState], the log file
      [user_logs.csv] is a [LogStore];
    - scikit-learn's [LogisticRegression] is external: its [fit] and
      [predict_proba] are Section variables. *)

From Stdlib Require Import ZArith QArith Qabs List String Ascii Bool Lia.
From Stdlib Require Import DecimalString.
Import ListNotations.

Local Open Scope string_scope.
Local Open Scope list_scope.
Local Open Scope Z_scope.

(* ================================================================== *)
(** ** Python prelude *)
(* ================================================================== *)

Module Py.

(** The exceptions the modelled code can raise. [LibraryError] stands
    for whatever an external library raises. *)
Inductive exn : Type :=
| ValueError
| IndexError
| TypeError
| FileNotFoundError
| LibraryError (msg : string).

Inductive result (A : Type) : Type :=
| Ok (a : A)
| Raise (e : exn).
Arguments Ok {A} a.
Arguments Raise {A} e.

Definition bind {A B} (c : result A) (k : A -> result B) : result B :=
  match c with
  | Ok a => k a
  | Raise e => Raise e
  end.

(** [try: c except: h] with a bare [except]. *)
Definition try_except {A} (c : result A) (h : A) : A :=
  match c with
  | Ok a => a
  | Raise _ => h
  end.

(** [str(n)] and [int(s)] on decimal integers. Python's [int] also
    accepts surrounding blanks, a [+] sign and underscores between
    digits, which raise here; the script only feeds it the digits it
    printed itself. *)
Definition str (n : Z) : string := NilZero.string_of_int (Z.to_int n).

Definition int (s : string) : result Z :=
  match NilZero.int_of_string s with
  | Some d => Ok (Z.of_int d)
  | None => Raise ValueError
  end.

(** [s.split(sep)[0]] for a one-character separator: the text before
    the first separator, the whole string when there is none. *)
Fixpoint split_head (sep : ascii) (s : string) : string :=
  match s with
  | EmptyString => EmptyString
  | String c s' =>
      if Ascii.eqb c sep then EmptyString else String c (split_head sep s')
  end.

(** [s.split(sep, 1)] for a one-character separator: one piece when
    the separator does not occur, two pieces otherwise. *)
Fixpoint split1 (sep : ascii) (s : string) : list string :=
  match s with
  | EmptyString => [EmptyString]
  | String c s' =>
      if Ascii.eqb c sep then [EmptyString; s']
      else match split1 sep s' with
           | h :: t => String c h :: t
           | [] => [String c EmptyString]
           end
  end.

(** [a, b = xs]: unpacking into exactly two names. *)
Definition unpack2 {A} (xs : list A) : result (A * A) :=
  match xs with
  | [a; b] => Ok (a, b)
  | _ => Raise ValueError
  end.

(** [xs[i]] on a list, negative indices counting from the end. *)
Definition getitem {A} (xs : list A) (i : Z) : result A :=
  let n := Z.of_nat (List.length xs) in
  let j := if i <? 0 then i + n else i in
  if (0 <=? j) && (j <? n) then
    match nth_error xs (Z.to_nat j) with
    | Some x => Ok x
    | None => Raise IndexError
    end
  else Raise IndexError.

(** *** Dictionaries keyed by strings

    A [dict] keeps its keys in insertion order and [min] iterates in
    that order, so the model is an association list with unique keys:
    assignment to a present key replaces the value in place, assignment
    to a new key appends. *)
Definition dict (V : Type) : Type := list (string * V).

Fixpoint setitem {V} (d : dict V) (k : string) (v : V) : dict V :=
  match d with
  | [] => [(k, v)]
  | (k', v') :: d' =>
      if String.eqb k' k then (k, v) :: d' else (k', v') :: setitem d' k v
  end.

Fixpoint get {V} (d : dict V) (k : string) : option V :=
  match d with
  | [] => None
  | (k', v') :: d' => if String.eqb k' k then Some v' else get d' k
  end.

Definition keys {V} (d : dict V) : list string := map fst d.

(** *** [min(iterable, key=f)]

    [f] returns [None] where Python's key function would (as [dict.get]
    does on a missing key); comparing [None] with a float is a
    [TypeError]. The first element is the initial candidate and is
    replaced only by a strictly smaller one. *)
Definition Qltb (x y : Q) : bool := negb (Qle_bool y x).

Definition lt (a b : option Q) : result bool :=
  match a, b with
  | Some x, Some y => Ok (Qltb x y)
  | _, _ => Raise TypeError
  end.

Fixpoint min_loop {A} (f : A -> option Q) (best : A) (l : list A)
  : result A :=
  match l with
  | [] => Ok best
  | x :: l' =>
      bind (lt (f x) (f best)) (fun smaller =>
        if smaller then min_loop f x l' else min_loop f best l')
  end.

Definition min {A} (f : A -> option Q) (l : list A) : result A :=
  match l with
  | [] => Raise ValueError
  | x :: l' => min_loop f x l'
  end.

End Py.

Import Py.

Declare Scope py_scope.
Delimit Scope py_scope with py.
Notation "x <- c ;; k" := (bind c (fun x => k))
  (at level 61, c at next level, right associativity) : py_scope.
Notation "' pat <- c ;; k" := (bind c (fun v => match v with pat => k end))
  (at level 61, pat pattern, c at next level, right associativity) : py_scope.
Local Open Scope py_scope.

(* ================================================================== *)
(** ** Configuration *)
(* ================================================================== *)

Definition MAX_QUESTIONS : Z := 6.

(* ================================================================== *)
(** ** The response log (user_logs.csv) *)
(* ================================================================== *)

(** One row of the log, with the columns of the header in order. *)
Record ResponseRecord : Type := mkRecord {
  topic : string;
  difficulty : string;
  answered_correct : Z;
  choice : Z;
  question_id : string
}.

(** The file system as far as the script sees it: [None] when
    user_logs.csv does not exist, otherwise its data rows (the header
    is always the same five columns). *)
Definition LogStore : Type := option (list ResponseRecord).

(** Lines 34-35: create a header-only file when none exists. *)
Definition init_log_file (fs : LogStore) : LogStore :=
  match fs with
  | None => Some []
  | Some rows => Some rows
  end.

(** [pd.read_csv(LOG_FILE)]. *)
Definition read_csv (fs : LogStore) : result (list ResponseRecord) :=
  match fs with
  | None => Raise FileNotFoundError
  | Some rows => Ok rows
  end.

(** [df.to_csv(LOG_FILE, index=False)]: the file is rewritten whole. *)
Definition to_csv (rows : list ResponseRecord) (fs : LogStore) : LogStore :=
  Some rows.

(** [log_result], lines 40-49: read the frame, concatenate one row at
    the end, write the frame back. *)
Definition log_result (topic difficulty : string) (answered_correct choice : Z)
    (question_id : string) (fs : LogStore) : result LogStore :=
  df_log <- read_csv fs ;;
  let df_log := df_log ++ [mkRecord topic difficulty answered_correct choice
                                    question_id] in
  Ok (to_csv df_log fs).

(* ================================================================== *)
(** ** Data of a quiz session *)
(* ================================================================== *)

(** The JSON object the question generator is asked for (lines 81-90). *)
Record GeneratedQuestion : Type := mkGenerated {
  g_question : string;
  g_option1 : string;
  g_option2 : string;
  g_option3 : string;
  g_option4 : string;
  g_correct_answer : Z;
  g_explanation : string
}.

(** [q_data]: the generated object after lines 350-352 added the
    topic, the difficulty and the question id. *)
Record Question : Type := mkQuestion {
  q_question : string;
  option1 : string;
  option2 : string;
  option3 : string;
  option4 : string;
  correct_answer : Z;
  explanation : string;
  q_topic : string;
  q_difficulty : string;
  q_question_id : string
}.

(** The keys of [st.session_state] the quiz logic uses (lines 309-318;
    [asked_questions] is initialised there and never read). *)
Record SessionState : Type := mkSession {
  score : Z;
  current_question : option Question;
  answered : bool;
  num_questions : Z
}.

Definition initial_session : SessionState :=
  mkSession 0 None false 0.

(** What a run of the script can read and write. *)
Record World : Type := mkWorld {
  session_state : SessionState;
  log_file : LogStore
}.

(* ================================================================== *)
(** ** One-hot encoding of (topic, difficulty) *)
(* ================================================================== *)

Module OneHotEncoder.

(** A fitted encoder: the sorted distinct values of each column. *)
Record t : Type := mk {
  categories_topic : list string;
  categories_difficulty : list string
}.

Fixpoint insert (x : string) (l : list string) : list string :=
  match l with
  | [] => [x]
  | y :: l' =>
      match String.compare x y with
      | Lt => x :: l
      | Eq => l
      | Gt => y :: insert x l'
      end
  end.

(** Sorted distinct values of a column. *)
Definition unique (col : list string) : list string :=
  fold_right insert [] col.

Definition fit (X : list (string * string)) : t :=
  mk (unique (map fst X)) (unique (map snd X)).

(** One block of the encoding. With [handle_unknown="ignore"] a value
    that is no category gives a block of zeros, not an error. *)
Definition one_hot (categories : list string) (v : string) : list Q :=
  map (fun c => if String.eqb c v then 1%Q else 0%Q) categories.

Definition transform_row (enc : t) (row : string * string) : list Q :=
  one_hot (categories_topic enc) (fst row)
  ++ one_hot (categories_difficulty enc) (snd row).

Definition transform (enc : t) (X : list (string * string)) : list (list Q) :=
  map (transform_row enc) X.

End OneHotEncoder.

(** [len(df)] and [series.nunique()]. *)
Definition len {A} (l : list A) : Z := Z.of_nat (List.length l).

Definition nunique (col : list Z) : Z := len (nodup Z.eq_dec col).

(** [f"{topic}_{difficulty}"]. *)
Definition combo_key (topic difficulty : string) : string :=
  (topic ++ "_" ++ difficulty)%string.

Definition topics : list string :=
  ["World War I"; "World War II"; "World Wars General"].

Definition difficulties : list string := ["Easy"; "Medium"; "Hard"].

(** The combinations in the order the nested loops of lines 185-186
    visit them. *)
Definition combinations : list (string * string) :=
  flat_map (fun topic => map (fun difficulty => (topic, difficulty)) difficulties)
           topics.

(* ================================================================== *)
(** ** The adaptive selector *)
(* ================================================================== *)

Section AdaptiveSelector.

(** scikit-learn's logistic regression: the type of fitted models,
    [LogisticRegression().fit(X, y)] and [model.predict_proba(X)]
    (one row [[p0; p1]] per row of [X]). Both may raise. *)
Variable LogisticRegression : Type.
Variable fit : list (list Q) -> list Z -> result LogisticRegression.
Variable predict_proba :
  LogisticRegression -> list (list Q) -> result (list (list Q)).

(** [train_adaptive_model], lines 160-171. *)
Definition train_adaptive_model (fs : LogStore)
  : result (option LogisticRegression * option OneHotEncoder.t) :=
  log_data <- read_csv fs ;;
  if (len log_data <? 3) || (nunique (map answered_correct log_data) <? 2)
  then Ok (None, None)
  else
    let X := map (fun r => (topic r, difficulty r)) log_data in
    let y := map answered_correct log_data in
    let enc := OneHotEncoder.fit X in
    let X_enc := OneHotEncoder.transform enc X in
    model <- fit X_enc y ;;
    Ok (Some model, Some enc).

(** The body of the [try] of lines 188-190:
    [model.predict_proba(enc.transform(sample))[0][1]]. *)
Definition predict_correct (model : LogisticRegression)
    (enc : OneHotEncoder.t) (topic difficulty : string) : result Q :=
  let sample := [(topic, difficulty)] in
  let X_enc := OneHotEncoder.transform enc sample in
  proba <- predict_proba model X_enc ;;
  row <- getitem proba 0 ;;
  getitem row 1.

(** Lines 183-193: the nested loops filling [predictions]. *)
Definition build_predictions (model : LogisticRegression)
    (enc : OneHotEncoder.t) : dict Q :=
  fold_left (fun predictions topic =>
    fold_left (fun predictions difficulty =>
      try_except
        (prob <- predict_correct model enc topic difficulty ;;
         Ok (setitem predictions (combo_key topic difficulty) prob))
        (setitem predictions (combo_key topic difficulty) (1 # 2)%Q))
      difficulties predictions)
    topics [].

(** [select_adaptive_difficulty], lines 176-199. *)
Definition select_adaptive_difficulty (model : option LogisticRegression)
    (enc : option OneHotEncoder.t) : result (string * string) :=
  match model, enc with
  | Some model, Some enc =>
      let predictions := build_predictions model enc in
      weakest_key <- Py.min (get predictions) (keys predictions) ;;
      '(topic, difficulty) <- unpack2 (split1 "_" weakest_key) ;;
      Ok (topic, difficulty)
  | _, _ => Ok ("World War I", "Easy")
  end.

End AdaptiveSelector.

(* ================================================================== *)
(** ** The script as a state machine *)
(* ================================================================== *)

(** A piece of the script: it reads and writes the [World] and ends
    normally or by an exception. Streamlit keeps what was written to
    [st.session_state] and to the file before an exception, so the
    world is returned in both cases. *)
Definition Script (A : Type) : Type := World -> result A * World.

Definition sret {A} (a : A) : Script A := fun w => (Ok a, w).

Definition sbind {A B} (c : Script A) (k : A -> Script B) : Script B :=
  fun w =>
    match c w with
    | (Ok a, w') => k a w'
    | (Raise e, w') => (Raise e, w')
    end.

Notation "x <~ c ;; k" := (sbind c (fun x => k))
  (at level 61, c at next level, right associativity) : py_scope.
Notation "' pat <~ c ;; k" := (sbind c (fun v => match v with pat => k end))
  (at level 61, pat pattern, c at next level, right associativity) : py_scope.
Notation "c ;;; k" := (sbind c (fun _ => k))
  (at level 61, right associativity) : py_scope.

(** A pure computation inside the script. *)
Definition lift {A} (r : result A) : Script A := fun w => (r, w).

Definition get_session : Script SessionState :=
  fun w => (Ok (session_state w), w).

Definition put_session (s : SessionState) : Script unit :=
  fun w => (Ok tt, mkWorld s (log_file w)).

Definition get_file : Script LogStore :=
  fun w => (Ok (log_file w), w).

Definition put_file (fs : LogStore) : Script unit :=
  fun w => (Ok tt, mkWorld (session_state w) fs).

Definition set_score (v : Z) : Script unit :=
  s <~ get_session ;;
  put_session (mkSession v (current_question s) (answered s) (num_questions s)).

Definition set_current_question (v : option Question) : Script unit :=
  s <~ get_session ;;
  put_session (mkSession (score s) v (answered s) (num_questions s)).

Definition set_answered (v : bool) : Script unit :=
  s <~ get_session ;;
  put_session (mkSession (score s) (current_question s) v (num_questions s)).

Definition set_num_questions (v : Z) : Script unit :=
  s <~ get_session ;;
  put_session (mkSession (score s) (current_question s) (answered s) v).

(** [log_result] acting on the file of the world. *)
Definition do_log_result (topic difficulty : string)
    (answered_correct choice : Z) (question_id : string) : Script unit :=
  fs <~ get_file ;;
  fs' <~ lift (log_result topic difficulty answered_correct choice
                          question_id fs) ;;
  put_file fs'.

(** The four options of [st.radio]: the widget returns the selected
    one of the strings it was given, the first by default. *)
Inductive RadioOption : Type := Radio0 | Radio1 | Radio2 | Radio3.

Definition radio_index (r : RadioOption) : nat :=
  match r with
  | Radio0 => 0%nat
  | Radio1 => 1%nat
  | Radio2 => 2%nat
  | Radio3 => 3%nat
  end.

(** What the outside world contributes to one run of the script. A
    button flag is read only where the script draws the button. *)
Record Inputs : Type := mkInputs {
  api_key : bool;
  generated : string -> string -> option GeneratedQuestion;
  radio : RadioOption;
  submit_clicked : bool;
  next_clicked : bool;
  again_clicked : bool
}.

(** Lines 386-387. *)
Definition options (q_data : Question) : list string :=
  [option1 q_data; option2 q_data; option3 q_data; option4 q_data].

Definition enumerate {A} (l : list A) : list (nat * A) :=
  combine (seq 0 (List.length l)) l.

Definition options_numbered (q_data : Question) : list string :=
  map (fun '(i, opt) => (str (Z.of_nat i + 1) ++ ". " ++ opt)%string)
      (enumerate (options q_data)).

(** Line 389. *)
Definition st_radio (labels : list string) (r : RadioOption) : string :=
  nth (radio_index r) labels EmptyString.

(** Lines 396-415: the submit handler. Lines 417-438 only read the log
    and call the video collaborators, whose exceptions are caught. *)
Definition submit_answer (submit_clicked : bool) (choice : string)
    (q_data : Question) : Script unit :=
  s <~ get_session ;;
  if submit_clicked && negb (answered s) then
    selected <~ lift (int (split_head "." choice)) ;;
    let correct_answer := correct_answer q_data in
    let answered_correct := if selected =? correct_answer then 1 else 0 in
    (if negb (answered_correct =? 0) then
       s <~ get_session ;;
       set_score (score s + 1)
     else
       (* the message of line 406 evaluates options[correct_answer-1] *)
       _ <~ lift (getitem (options q_data) (correct_answer - 1)) ;;
       sret tt) ;;;
    do_log_result (q_topic q_data) (q_difficulty q_data) answered_correct
                  selected (q_question_id q_data) ;;;
    set_answered true
  else sret tt.

(** Lines 441-448: the next-question button. [st.rerun()] ends the
    run; the run it starts is the next step of the machine. *)
Definition next_question_button (next_clicked : bool) : Script unit :=
  s <~ get_session ;;
  if answered s then
    if next_clicked then
      set_num_questions (num_questions s + 1) ;;;
      set_current_question None ;;;
      set_answered false
    else sret tt
  else sret tt.

(** Lines 518-522: the keys are deleted and the rerun initialises them
    again (lines 309-318); both are one assignment here. *)
Definition take_quiz_again (again_clicked : bool) : Script unit :=
  if again_clicked then put_session initial_session else sret tt.

Section QuizLogic.

Variable LogisticRegression : Type.
Variable fit : list (list Q) -> list Z -> result LogisticRegression.
Variable predict_proba :
  LogisticRegression -> list (list Q) -> result (list (list Q)).

(** Lines 340-353: ask for the next question. *)
Definition generate_next (inp : Inputs) : Script unit :=
  s <~ get_session ;;
  match current_question s with
  | None =>
      if num_questions s <? MAX_QUESTIONS then
        fs <~ get_file ;;
        '(model, enc) <~ lift (train_adaptive_model LogisticRegression fit fs) ;;
        '(topic, difficulty) <~
          lift (select_adaptive_difficulty LogisticRegression predict_proba
                                           model enc) ;;
        match generated inp topic difficulty with
        | Some g =>
            set_current_question (Some (mkQuestion
              (g_question g) (g_option1 g) (g_option2 g) (g_option3 g)
              (g_option4 g) (g_correct_answer g) (g_explanation g)
              topic difficulty
              (combo_key topic difficulty ++ "_" ++ str (num_questions s))%string))
        | None => sret tt
        end
      else sret tt
  | Some _ => sret tt
  end.

(** Lines 356-547: the question page or the completion page. *)
Definition quiz_page (inp : Inputs) : Script unit :=
  s <~ get_session ;;
  match current_question s with
  | Some q_data =>
      if num_questions s <? MAX_QUESTIONS then
        let choice := st_radio (options_numbered q_data) (radio inp) in
        submit_answer (submit_clicked inp) choice q_data ;;;
        next_question_button (next_clicked inp)
      else take_quiz_again (again_clicked inp)
  | None => take_quiz_again (again_clicked inp)
  end.

(** One run of the script, top to bottom. Without an API key
    [setup_openai] stops the run at line 306. *)
Definition run_script (inp : Inputs) : Script unit :=
  fs <~ get_file ;;
  put_file (init_log_file fs) ;;;
  if api_key inp then
    generate_next inp ;;;
    quiz_page inp
  else sret tt.

(** The world after a run, however the run ended. *)
Definition step (inp : Inputs) (w : World) : World :=
  snd (run_script inp w).

(** The worlds a session can be observed in: the script starts from
    the initial session values over any file system. *)
Inductive reachable : World -> Prop :=
| reachable_init (fs : LogStore) : reachable (mkWorld initial_session fs)
| reachable_step (inp : Inputs) (w : World) :
    reachable w -> reachable (step inp w).

End QuizLogic.

(* ================================================================== *)
(** ** The collaborators' replies *)
(* ================================================================== *)

(** [s.startswith(prefix)]. *)
Fixpoint startswith (prefix s : string) : bool :=
  match prefix with
  | EmptyString => true
  | String a prefix' =>
      match s with
      | EmptyString => false
      | String c s' => Ascii.eqb c a && startswith prefix' s'
      end
  end.

(** [s.replace(old, new)] for a non-empty [old]: the occurrences are
    found from the left and do not overlap. [skip] counts the
    characters of a found occurrence still to pass over. *)
Fixpoint replace_from (old new : string) (skip : nat) (s : string) : string :=
  match s with
  | EmptyString => EmptyString
  | String c s' =>
      match skip with
      | S k => replace_from old new k s'
      | O =>
          if startswith old s
          then (new ++ replace_from old new (String.length old - 1) s')%string
          else String c (replace_from old new 0 s')
      end
  end.

Definition replace (old new s : string) : string := replace_from old new 0 s.

(** [s.split(sep)] for a one-character separator. *)
Fixpoint split (sep : ascii) (s : string) : list string :=
  match s with
  | EmptyString => [EmptyString]
  | String c s' =>
      if Ascii.eqb c sep then EmptyString :: split sep s'
      else match split sep s' with
           | h :: t => String c h :: t
           | [] => [String c EmptyString]
           end
  end.

(** The truth value of a string. *)
Definition nonempty (s : string) : bool :=
  match s with
  | EmptyString => false
  | String _ _ => true
  end.

Definition newline : ascii := ascii_of_nat 10.

Definition fence : string := "```".

(** Python values as far as the script looks into the result of the
    video search. *)
#[warnings="-register-all"]
Inductive value : Type :=
| VNone
| VBool (b : bool)
| VInt (n : Z)
| VStr (s : string)
| VList (items : list value)
| VDict (entries : list (string * value)).

(** The truth value of a value. *)
Definition truthy (v : value) : bool :=
  match v with
  | VNone => false
  | VBool b => b
  | VInt n => negb (n =? 0)
  | VStr s => nonempty s
  | VList items => match items with [] => false | _ => true end
  | VDict entries => match entries with [] => false | _ => true end
  end.

(** [v[key]] for a string key: only a dict has string keys. The
    KeyError of a missing key is carried by name. *)
Definition subscript (v : value) (key : string) : result value :=
  match v with
  | VDict entries =>
      match get entries key with
      | Some x => Ok x
      | None => Raise (LibraryError "KeyError")
      end
  | _ => Raise TypeError
  end.

(** [fetch_youtube_video], lines 146-155. [search query] is what
    [VideosSearch(query, limit=1).result()] gives. *)
Definition fetch_youtube_video (search : string -> result value)
    (query : string) : value :=
  try_except
    (result <- search query ;;
     found <- subscript result "result" ;;
     if truthy found then subscript found "link" else Ok VNone)
    VNone.

Section Replies.

(** [str.strip()], whose set of blanks is Python's. *)
Variable strip : string -> string.

(** Lines 101-104: the reply without its blanks and code fences. *)
Definition clean_reply (content : string) : string :=
  let question_json := strip content in
  if startswith fence question_json
  then replace fence "" (replace "```json" "" question_json)
  else question_json.

(** [generate_world_wars_question], lines 54-109. [client topic
    difficulty] is the content of the reply to the prompt of lines
    57-99, which is built from these two; [loads] is [json.loads]. *)
Definition generate_world_wars_question
    (client : string -> string -> result string)
    (loads : string -> result value) (topic difficulty : string) : value :=
  try_except
    (content <- client topic difficulty ;;
     loads (clean_reply content))
    VNone.

(** Lines 140-141 and 240-241: the non-blank lines of a reply,
    stripped, at most [n] of them. *)
Definition reply_queries (content : string) (n : nat) : list string :=
  let queries := split newline (strip content) in
  firstn n (map strip (filter (fun q => nonempty (strip q)) queries)).

(** [get_educational_youtube_recommendation], lines 114-144. [client]
    is the content of the reply to the prompt, which is built from
    the performance context, the difficulty and the topic. *)
Definition get_educational_youtube_recommendation
    (client : string -> string -> string -> result string)
    (topic difficulty : string) (user_performance : Q) : list string :=
  try_except
    (let performance_context :=
       if Qltb user_performance (1 # 2) then "having some difficulty"
       else "doing well" in
     content <- client performance_context difficulty topic ;;
     Ok (reply_queries content 3))
    [(topic ++ " for kids")%string; "World Wars simple explanation";
     "History for middle school"].

(** [get_final_recommendations], lines 204-250. The division of line
    207 raises on a zero total, inside the [try]. *)
Definition get_final_recommendations
    (client : Z -> Z -> Q -> string -> string -> result string)
    (final_score total_questions : Z) : list string :=
  try_except
    (performance_pct <-
       (if total_questions =? 0
        then Raise (LibraryError "ZeroDivisionError")
        else Ok (inject_Z final_score / inject_Z total_questions * 100)%Q) ;;
     let '(level_desc, focus) :=
       if Qle_bool 80 performance_pct then
         ("excellent work",
          "advanced World Wars topics and connections between events")
       else if Qle_bool 60 performance_pct then
         ("good understanding but room for improvement",
          "reviewing key facts and important events")
       else
         ("need to strengthen your foundation",
          "basic World Wars facts, dates, and major figures") in
     content <- client final_score total_questions performance_pct
                       level_desc focus ;;
     Ok (reply_queries content 5))
    ["World War 1 for kids"; "World War 2 simple explanation";
     "History of World Wars animated";
     "Famous World War leaders for students";
     "World Wars timeline for middle school"].

End Replies.

(* ================================================================== *)
(** ** What the pages show *)
(* ================================================================== *)

(** The figures below are binary64 numbers in Python, quotients of
    small integers; they are embedded in [Q]. The comparisons made on
    them (with 0, 0.5, 1, 60, 80, 100 and 200) come out the same: a
    correctly rounded quotient is on the same side of a representable
    bound as the exact one, and no score out of [MAX_QUESTIONS] is
    within rounding distance of 60 or 80 percent. *)

(** [series.mean()]: [None] is the NaN of an empty series. *)
Definition mean (col : list Z) : option Q :=
  match col with
  | [] => None
  | _ =>
      let total := fold_right Z.add 0 col in
      Some (inject_Z total / inject_Z (len col))%Q
  end.

(** Lines 421-425: the share of correct answers among the logged rows
    of the question's topic and difficulty. *)
Definition topic_performance (log_data : list ResponseRecord)
    (q_data : Question) : option Q :=
  match log_data with
  | [] => Some (1 # 2)%Q
  | _ =>
      mean (map answered_correct
              (filter (fun r => String.eqb (topic r) (q_topic q_data)
                                && String.eqb (difficulty r)
                                              (q_difficulty q_data))
                      log_data))
  end.

(** Lines 330-335: the accuracy and the progress of the sidebar,
    shown once a question is counted. *)
Definition sidebar (s : SessionState) : option (Q * Q) :=
  if 0 <? num_questions s then
    Some ((inject_Z (score s) / inject_Z (num_questions s) * 100)%Q,
          (inject_Z (num_questions s) / inject_Z MAX_QUESTIONS)%Q)
  else None.

(** Lines 455-477: the percentage and the feedback of the completion
    page. *)
Definition final_percentage (final_score : Z) : Q :=
  (inject_Z final_score / inject_Z MAX_QUESTIONS * 100)%Q.

Definition final_feedback (final_score : Z) : string :=
  let percentage := final_percentage final_score in
  if Qle_bool 80 percentage then
    "You're ready for more advanced historical topics!"
  else if Qle_bool 60 percentage then
    "Keep studying to master all the important details!"
  else "Focus on the basics and you'll improve quickly!".

(* ================================================================== *)
(** ** Runs in which the submit handler raises *)
(* ================================================================== *)

(** [submit_answer] above is the handler when nothing raises between
    the increment of line 404 and the assignment of line 415. Two
    things can: showing the explanation (lines 409-411), where
    [q_data["explanation"]] is a KeyError when the stored dict has no
    such key (lines 349-353 store any truthy dict), and [log_result]
    at line 414, which fails when the file cannot be read or written.
    The record [Question] has every key and [LogStore] no unreadable
    file, so both are given to a run from outside, as a fault. *)
Inductive Fault : Type :=
| NoFault
| ExplanationFailure (e : exn)
| LogFailure (e : exn) (remains : LogStore).

Definition faulted (fault : Fault) : bool :=
  match fault with
  | NoFault => false
  | _ => true
  end.

(** Lines 409-411. *)
Definition show_explanation (fault : Fault) : Script unit :=
  match fault with
  | ExplanationFailure e => lift (Raise e)
  | _ => sret tt
  end.

(** Line 414. A failing [log_result] raises [e] and leaves the file
    as [remains]: as it was when the read failed, whatever the write
    left behind when the write failed. *)
Definition log_result_under (fault : Fault) (topic difficulty : string)
    (answered_correct choice : Z) (question_id : string) : Script unit :=
  match fault with
  | LogFailure e remains => put_file remains ;;; lift (Raise e)
  | _ => do_log_result topic difficulty answered_correct choice question_id
  end.

(** Lines 396-415 under a fault. *)
Definition submit_answer_under (fault : Fault) (submit_clicked : bool)
    (choice : string) (q_data : Question) : Script unit :=
  s <~ get_session ;;
  if submit_clicked && negb (answered s) then
    selected <~ lift (int (split_head "." choice)) ;;
    let correct_answer := correct_answer q_data in
    let answered_correct := if selected =? correct_answer then 1 else 0 in
    (if negb (answered_correct =? 0) then
       s <~ get_session ;;
       set_score (score s + 1)
     else
       _ <~ lift (getitem (options q_data) (correct_answer - 1)) ;;
       sret tt) ;;;
    show_explanation fault ;;;
    log_result_under fault (q_topic q_data) (q_difficulty q_data)
                     answered_correct selected (q_question_id q_data) ;;;
    set_answered true
  else sret tt.

(** Lines 356-547 under a fault. *)
Definition quiz_page_under (fault : Fault) (inp : Inputs) : Script unit :=
  s <~ get_session ;;
  match current_question s with
  | Some q_data =>
      if num_questions s <? MAX_QUESTIONS then
        let choice := st_radio (options_numbered q_data) (radio inp) in
        submit_answer_under fault (submit_clicked inp) choice q_data ;;;
        next_question_button (next_clicked inp)
      else take_quiz_again (again_clicked inp)
  | None => take_quiz_again (again_clicked inp)
  end.

Section FaultyRuns.

Variable LogisticRegression : Type.
Variable fit : list (list Q) -> list Z -> result LogisticRegression.
Variable predict_proba :
  LogisticRegression -> list (list Q) -> result (list (list Q)).

(** One run of the script under a fault. *)
Definition run_script_under (fault : Fault) (inp : Inputs) : Script unit :=
  fs <~ get_file ;;
  put_file (init_log_file fs) ;;;
  if api_key inp then
    generate_next LogisticRegression fit predict_proba inp ;;;
    quiz_page_under fault inp
  else sret tt.

Definition step_under (fault : Fault) (inp : Inputs) (w : World) : World :=
  snd (run_script_under fault inp w).

(** The worlds a session can be observed in when runs may be faulty.
    The flag tells whether some run so far was given a fault. *)
Inductive history : bool -> World -> Prop :=
| history_init (fs : LogStore) : history false (mkWorld initial_session fs)
| history_step (fault : Fault) (inp : Inputs) (b : bool) (w : World) :
    history b w -> history (b || faulted fault) (step_under fault inp w).

End FaultyRuns.

(* ================================================================== *)
(** ** The log as the CSV reader gives it back *)
(* ================================================================== *)

(** [log_result] above appends to the rows as they were written.
    The code reads the file with [pd.read_csv] first (line 41) and
    writes the whole frame back (line 49), and the reader interprets
    what it reads: a missing-value token such as NA is read as
    missing and written back empty, text that is all digits is read
    as a number. [reparse rows] is what is read back from a file
    holding [rows]. *)
Section CsvLog.

Variable reparse : list ResponseRecord -> list ResponseRecord.

(** [pd.read_csv(LOG_FILE)]. *)
Definition read_csv_as (fs : LogStore) : result (list ResponseRecord) :=
  match fs with
  | None => Raise FileNotFoundError
  | Some rows => Ok (reparse rows)
  end.

(** [log_result], lines 40-49. *)
Definition log_result_as (topic difficulty : string)
    (answered_correct choice : Z) (question_id : string) (fs : LogStore)
  : result LogStore :=
  df_log <- read_csv_as fs ;;
  let df_log := df_log ++ [mkRecord topic difficulty answered_correct choice
                                    question_id] in
  Ok (to_csv df_log fs).

End CsvLog.

(* ================================================================== *)
(** ** Vocabulary of the properties *)
(* ================================================================== *)

(** [c in s] for a character. *)
Fixpoint has_char (c : ascii) (s : string) : bool :=
  match s with
  | EmptyString => false
  | String c' s' => Ascii.eqb c' c || has_char c s'
  end.

(** The probability one iteration of lines 187-193 stores for a
    combination: the model's, or 0.5 when the [try] raised. *)
Definition predicted (LogisticRegression : Type)
    (predict_proba :
       LogisticRegression -> list (list Q) -> result (list (list Q)))
    (model : LogisticRegression) (enc : OneHotEncoder.t)
    (c : string * string) : Q :=
  try_except
    (predict_correct LogisticRegression predict_proba model enc (fst c) (snd c))
    (1 # 2)%Q.

(** The guard of line 162. *)
Definition insufficient (log_data : list ResponseRecord) : bool :=
  (len log_data <? 3) || (nunique (map answered_correct log_data) <? 2).

(** The rows of a store, none when there is no file. *)
Definition rows_of (fs : LogStore) : list ResponseRecord :=
  match fs with
  | Some rows => rows
  | None => []
  end.

Definition ResponseRecord_eq_dec (a b : ResponseRecord) : {a = b} + {a <> b}.
Proof.
  decide equality; try apply string_dec; apply Z.eq_dec.
Defined.

(** The features and the outcomes [train_adaptive_model] fits on. *)
Definition training_pairs (log_data : list ResponseRecord)
  : list (string * string) :=
  map (fun r => (topic r, difficulty r)) log_data.

Definition training_X (log_data : list ResponseRecord) : list (list Q) :=
  OneHotEncoder.transform (OneHotEncoder.fit (training_pairs log_data))
                          (training_pairs log_data).

Definition training_y (log_data : list ResponseRecord) : list Z :=
  map answered_correct log_data.

(** The verdict of line 399. *)
Definition verdict (selected : Z) (q_data : Question) : Z :=
  if selected =? correct_answer q_data then 1 else 0.

(** The world after a graded submission. *)
Definition graded (selected : Z) (q_data : Question) (s : SessionState)
    (rows : list ResponseRecord) : World :=
  mkWorld
    (mkSession (score s + verdict selected q_data) (current_question s) true
               (num_questions s))
    (Some (rows ++ [mkRecord (q_topic q_data) (q_difficulty q_data)
                             (verdict selected q_data) selected
                             (q_question_id q_data)])).

(** The bounds a session keeps: the score counts the correct answers
    among the questions answered, of which the one on display is
    counted by [num_questions] only once it is left. *)
Definition pending (s : SessionState) : Z :=
  if answered s then 1 else 0.

Definition score_bounds (s : SessionState) : Prop :=
  0 <= score s /\ 0 <= num_questions s /\
  score s <= num_questions s + pending s /\
  num_questions s + pending s <= MAX_QUESTIONS.

(** The invariant of the spec. *)
Definition spec_invariant (s : SessionState) : Prop :=
  0 <= score s /\ score s <= num_questions s /\
  num_questions s <= MAX_QUESTIONS.

(** The log file is there, as after line 35. *)
Definition file_exists (w : World) : Prop := log_file w <> None.

(** A world a handler of the question page can start in. *)
Definition page_ok (w : World) : Prop :=
  score_bounds (session_state w) /\ file_exists w.

(** [f"{topic}_{difficulty}_{n}"], the question id of line 352. *)
Definition question_key (topic difficulty : string) (n : Z) : string :=
  (combo_key topic difficulty ++ "_" ++ str n)%string.

(** A question as line 350-352 make it while [n] questions are
    counted: about one of the nine combinations, its id built from
    them and [n]. *)
Definition question_ok (n : Z) (q : Question) : Prop :=
  In (q_topic q, q_difficulty q) combinations /\
  q_question_id q = question_key (q_topic q) (q_difficulty q) n.

(** What the script keeps true of the session beside the bounds. *)
Definition session_ok (s : SessionState) : Prop :=
  (answered s = true ->
   current_question s <> None /\ num_questions s < MAX_QUESTIONS) /\
  (forall q, current_question s = Some q -> question_ok (num_questions s) q).

(** A row as the submit handler writes it for question number [n]. *)
Definition row_ok (n : Z) (r : ResponseRecord) : Prop :=
  In (topic r, difficulty r) combinations /\
  (answered_correct r = 0 \/ answered_correct r = 1) /\
  1 <= choice r <= 4 /\
  question_id r = question_key (topic r) (difficulty r) n.

(** The number of correct answers among some rows. *)
Definition sum_outcomes (rows : list ResponseRecord) : Z :=
  fold_right Z.add 0 (map answered_correct rows).

(** The session after the next-question button took effect. *)
Definition advanced (s : SessionState) : SessionState :=
  mkSession (score s) None false (num_questions s + 1).

(** Line 406 can index the option of this correct answer. *)
Definition indexable (correct : Z) : bool :=
  (-3 <=? correct) && (correct <=? 4).

(** [q_data] as lines 350-353 store it. *)
Definition question_of (g : GeneratedQuestion) (topic difficulty : string)
    (n : Z) : Question :=
  mkQuestion (g_question g) (g_option1 g) (g_option2 g) (g_option3 g)
             (g_option4 g) (g_correct_answer g) (g_explanation g)
             topic difficulty (question_key topic difficulty n).

(** The row line 414 writes for a graded choice. *)
Definition row_of (selected : Z) (q_data : Question) : ResponseRecord :=
  mkRecord (q_topic q_data) (q_difficulty q_data) (verdict selected q_data)
           selected (q_question_id q_data).

(** The world as lines 34-35 leave it. *)
Definition bootstrapped (w : World) : World :=
  mkWorld (session_state w) (init_log_file (log_file w)).

(** Several runs in a row, one input each. *)
Definition run_all (LogisticRegression : Type)
    (fit : list (list Q) -> list Z -> result LogisticRegression)
    (predict_proba :
       LogisticRegression -> list (list Q) -> result (list (list Q)))
    (inps : list Inputs) (w : World) : World :=
  fold_left (fun w inp => step LogisticRegression fit predict_proba inp w)
            inps w.

(** What one run may do to the counters, given the rows it added:
    reset them, or add the outcomes of the new rows to the score and
    count at most one more question. *)
Definition counters_move (s s' : SessionState) (added : list ResponseRecord)
  : Prop :=
  (s' = initial_session /\ added = []) \/
  (score s' = score s + sum_outcomes added /\
   (num_questions s' = num_questions s \/
    (num_questions s' = num_questions s + 1 /\
     answered s' = false /\ current_question s' = None))).

(** [pattern in s]. *)
Fixpoint occurs (pattern s : string) : bool :=
  startswith pattern s
  || match s with
     | EmptyString => false
     | String _ s' => occurs pattern s'
     end.

(** The string begins with a backtick. *)
Definition starts_tick (s : string) : bool := startswith "`" s.

(** The rows line 422-424 select for a question. *)
Definition same_combination (q_data : Question) (r : ResponseRecord) : bool :=
  String.eqb (topic r) (q_topic q_data)
  && String.eqb (difficulty r) (q_difficulty q_data).

(** An outcome as the submit handler writes it. *)
Definition outcome_ok (r : ResponseRecord) : Prop :=
  answered_correct r = 0 \/ answered_correct r = 1.

(** What a session keeps whatever raised in the submit handler. *)
Definition base_bounds (s : SessionState) : Prop :=
  0 <= score s /\
  0 <= num_questions s <= MAX_QUESTIONS /\
  (answered s = true -> num_questions s < MAX_QUESTIONS).

(** What one run, faulty or not, may do to the counters: reset them,
    or count at most one point and at most one question. *)
Definition counters_step (s s' : SessionState) : Prop :=
  s' = initial_session \/
  (score s <= score s' <= score s + 1 /\
   (num_questions s' = num_questions s \/
    (num_questions s' = num_questions s + 1 /\
     answered s' = false /\ current_question s' = None))).

(** A row the script wrote itself, for some question number. *)
Definition row_written (r : ResponseRecord) : Prop :=
  exists n, row_ok n r.

(* ================================================================== *)
(** ** Instances used in examples

    The properties below hold for every model type, [fit] and
    [predict_proba]. The examples need some: a linear model with a
    rational link in place of the logistic one, a [fit] that returns
    an intercept-only model, and a [fit] that fails. *)
(* ================================================================== *)

Module Example.

Record LinearModel : Type := mkLinear {
  coef_ : list Q;
  intercept_ : Q
}.

Fixpoint dot (w x : list Q) : Q :=
  match w, x with
  | a :: w', b :: x' => (a * b + dot w' x')%Q
  | _, _ => 0%Q
  end.

(** Increasing, within (0, 1), and 1/2 exactly at 0. *)
Definition link (z : Q) : Q :=
  Qred ((1 # 2) + z / (2 * (1 + Qabs z)))%Q.

Definition predict_proba (m : LinearModel) (X : list (list Q))
  : result (list (list Q)) :=
  Ok (map (fun x =>
             let p := link (dot (coef_ m) x + intercept_ m)%Q in
             [Qred (1 - p)%Q; p]) X).

(** All weights zero, the intercept the mean of 2y - 1. *)
Definition fit (X : list (list Q)) (y : list Z) : result LinearModel :=
  let n := Z.of_nat (List.length y) in
  let total := fold_left Z.add (map (fun v => 2 * v - 1) y) 0 in
  Ok (mkLinear (map (fun _ => 0%Q) (hd [] X))
               (Qred (Qmake total (Z.to_pos n)))).

(** A solver that gives up. *)
Definition failing_fit (X : list (list Q)) (y : list Z)
  : result LinearModel :=
  Raise (LibraryError "fit did not converge").

(** The log of the spec's scenario. *)
Definition log3 : list ResponseRecord :=
  [ mkRecord "World War I" "Easy" 1 2 "World War I_Easy_0";
    mkRecord "World War I" "Easy" 0 1 "World War I_Easy_1";
    mkRecord "World War II" "Hard" 1 4 "World War II_Hard_2" ].

(** A model that finds (World War II, Medium) hardest. *)
Definition encoder9 : OneHotEncoder.t :=
  OneHotEncoder.fit combinations.

Definition model9 : LinearModel :=
  mkLinear [1; -1; 0; 0; 0; -1]%Q 0%Q.

Definition question3 : GeneratedQuestion :=
  mkGenerated "When did World War I begin?" "1905" "1939" "1914" "1918" 3
              "World War I began in 1914.".

Definition q_data3 : Question :=
  mkQuestion "When did World War I begin?" "1905" "1939" "1914" "1918" 3
             "World War I began in 1914." "World War I" "Easy"
             "World War I_Easy_0".

Definition no_click : Inputs :=
  mkInputs true (fun _ _ => Some question3) Radio0 false false false.

Definition submit_third : Inputs :=
  mkInputs true (fun _ _ => Some question3) Radio2 true false false.

Definition click_next : Inputs :=
  mkInputs true (fun _ _ => Some question3) Radio0 false true false.

End Example.

(* ================================================================== *)
(** ** A CSV reader used in examples *)
(* ================================================================== *)

(** What pandas does to the text columns of the log, as far as the
    examples need it: a missing-value token is read as missing and
    written back empty; a column whose other fields are all unsigned
    integer literals is read as numbers, as integers when nothing is
    missing in it and as floats otherwise. Signs, fractions,
    exponents and booleans are left as text here. *)
Module Pandas.

Definition na_values : list string :=
  [""; "#N/A"; "#N/A N/A"; "#NA"; "-1.#IND"; "-1.#QNAN"; "-NaN"; "-nan";
   "1.#IND"; "1.#QNAN"; "<NA>"; "N/A"; "NA"; "NULL"; "NaN"; "None";
   "n/a"; "nan"; "null"].

Definition is_na (s : string) : bool := existsb (String.eqb s) na_values.

Definition is_digit (c : ascii) : bool :=
  let n := nat_of_ascii c in (48 <=? n)%nat && (n <=? 57)%nat.

Fixpoint all_digits (s : string) : bool :=
  match s with
  | EmptyString => true
  | String c s' => is_digit c && all_digits s'
  end.

Definition is_integer (s : string) : bool := nonempty s && all_digits s.

(** The text of the integer [s] stands for. *)
Definition canonical (s : string) : string :=
  match int s with
  | Ok n => str n
  | Raise _ => s
  end.

Definition reparse_column (col : list string) : list string :=
  let present := filter (fun s => negb (is_na s)) col in
  let numeric :=
    match present with
    | [] => false
    | _ => forallb is_integer present
    end in
  let missing := existsb is_na col in
  map (fun s =>
         if is_na s then ""
         else if numeric
              then (canonical s ++ (if missing then ".0" else ""))%string
              else s)
      col.

Fixpoint rebuild (rows : list ResponseRecord) (ts ds qs : list string)
  : list ResponseRecord :=
  match rows, ts, ds, qs with
  | r :: rows', t :: ts', d :: ds', q :: qs' =>
      mkRecord t d (answered_correct r) (choice r) q
      :: rebuild rows' ts' ds' qs'
  | _, _, _, _ => []
  end.

Definition reparse (rows : list ResponseRecord) : list ResponseRecord :=
  rebuild rows (reparse_column (map topic rows))
          (reparse_column (map difficulty rows))
          (reparse_column (map question_id rows)).

(** A file someone else left: a topic that reads as missing, an id
    that reads as a number. *)
Definition foreign_log : list ResponseRecord :=
  [mkRecord "NA" "Easy" 1 1 "007"].

End Pandas.

(* ================================================================== *)
(** ** Worlds used in examples *)
(* ================================================================== *)

Module Scenario.

Definition run (inp : Inputs) (w : World) : World :=
  step Example.LinearModel Example.fit Example.predict_proba inp w.

(** A fresh start, the first question shown, then answered. *)
Definition start : World := mkWorld initial_session None.

Definition shown : World := run Example.no_click start.

Definition answered_once : World := run Example.submit_third shown.

(** A generator that returns nothing. *)
Definition silent : Inputs :=
  mkInputs true (fun _ _ => None) Radio0 false false false.

(** A question whose correct answer indexes no option. *)
Definition broken_question : Question :=
  mkQuestion "When did World War I begin?" "1905" "1939" "1914" "1918" 9
             "World War I began in 1914." "World War I" "Easy"
             "World War I_Easy_0".

Definition stuck : World :=
  mkWorld (mkSession 0 (Some broken_question) false 0) (Some []).

(** All questions counted. *)
Definition finished : World :=
  mkWorld (mkSession 4 None false 6) (Some Example.log3).

Definition click_again : Inputs :=
  mkInputs true (fun _ _ => Some Example.question3) Radio0 false false true.

End Scenario.

(* ================================================================== *)
(** ** Faulty runs used in examples *)
(* ================================================================== *)

Module FaultScenario.

Definition run_under (fault : Fault) (inp : Inputs) (w : World) : World :=
  step_under Example.LinearModel Example.fit Example.predict_proba
             fault inp w.

(** The first question shown and answered, nothing raising. *)
Definition shown : World := run_under NoFault Example.no_click Scenario.start.

Definition answered_once : World :=
  run_under NoFault Example.submit_third shown.

Definition counted : World := run_under NoFault Example.click_next answered_once.

(** The KeyError of a dict without the key, carried by name. *)
Definition no_explanation : Fault :=
  ExplanationFailure (LibraryError "KeyError").

(** The same correct answer submitted twice to a question stored
    without an explanation. *)
Definition raised_once : World :=
  run_under no_explanation Example.submit_third shown.

Definition raised_twice : World :=
  run_under no_explanation Example.submit_third raised_once.

(** The row the script writes for the first question answered with
    option 2. *)
Definition new_row : ResponseRecord :=
  mkRecord "World War I" "Easy" 0 2 "World War I_Easy_3".

End FaultScenario.

(* ================================================================== *)
(** * Properties *)
(* ================================================================== *)

(** ** Strings and keys *)

Lemma split1_append (sep : ascii) (a b : string) :
  has_char sep a = false ->
  split1 sep (a ++ String sep b)%string = [a; b].
Proof.
  induction a as [|c a IH]; simpl.
  - intros _. now rewrite Ascii.eqb_refl.
  - intros H. apply orb_false_iff in H as [Hc Ha].
    rewrite Hc, (IH Ha). reflexivity.
Qed.

Lemma split1_combo_key (t d : string) :
  has_char "_" t = false ->
  unpack2 (split1 "_" (combo_key t d)) = Ok (t, d).
Proof.
  intros H. unfold combo_key.
  change ("_" ++ d)%string with (String "_" d).
  now rewrite (split1_append _ _ _ H).
Qed.

Lemma topics_no_underscore (t : string) :
  In t topics -> has_char "_" t = false.
Proof.
  unfold topics. simpl.
  intros [<-|[<-|[<-|[]]]]; reflexivity.
Qed.

Lemma in_combinations (t d : string) :
  In (t, d) combinations <-> In t topics /\ In d difficulties.
Proof.
  unfold combinations. rewrite in_flat_map. split.
  - intros (t' & Ht & Hd). apply in_map_iff in Hd as (d' & E & Hd).
    inversion E; subst. auto.
  - intros [Ht Hd]. exists t. split; [assumption|].
    apply in_map_iff. exists d. auto.
Qed.

(** ** The order on probabilities *)

Lemma Qltb_true (x y : Q) : Qltb x y = true <-> (x < y)%Q.
Proof.
  unfold Qltb. rewrite negb_true_iff. split.
  - intros H. apply Qnot_le_lt. intros L.
    apply Qle_bool_iff in L. congruence.
  - intros H. destruct (Qle_bool y x) eqn:E; [|reflexivity].
    apply Qle_bool_iff in E. exfalso. exact (Qlt_not_le _ _ H E).
Qed.

Lemma Qltb_false (x y : Q) : Qltb x y = false <-> (y <= x)%Q.
Proof.
  unfold Qltb. rewrite negb_false_iff. apply Qle_bool_iff.
Qed.

(** ** [min] returns the first smallest element *)

Section MinFirst.

Context {A : Type} (f : A -> option Q) (g : A -> Q).

(** The loop keeps, as [best], an element strictly below everything
    before it and not above anything seen after it. *)
Lemma min_loop_first (l before after : list A) (best : A) :
  (forall x, In x (before ++ best :: after ++ l) -> f x = Some (g x)) ->
  (forall x, In x before -> (g best < g x)%Q) ->
  (forall x, In x after -> (g best <= g x)%Q) ->
  exists r1 r r2,
    min_loop f best l = Ok r /\
    before ++ best :: after ++ l = r1 ++ r :: r2 /\
    (forall x, In x r1 -> (g r < g x)%Q) /\
    (forall x, In x r2 -> (g r <= g x)%Q).
Proof.
  revert before after best.
  induction l as [|x l IH]; intros before after best Hf Hb Ha.
  - exists before, best, after. rewrite app_nil_r. simpl. auto.
  - simpl.
    assert (Hx : f x = Some (g x)).
    { apply Hf. apply in_or_app. right. right. apply in_or_app.
      right. now left. }
    assert (Hbest : f best = Some (g best)).
    { apply Hf. apply in_or_app. right. now left. }
    rewrite Hx, Hbest. simpl.
    destruct (Qltb (g x) (g best)) eqn:E.
    + apply Qltb_true in E.
      destruct (IH (before ++ best :: after) [] x) as (r1 & r & r2 & H).
      * intros y Hy. apply Hf.
        rewrite <- app_assoc in Hy. simpl in Hy. exact Hy.
      * intros y Hy. apply in_app_or in Hy as [Hy|[<-|Hy]].
        -- eapply Qlt_trans; [exact E | now apply Hb].
        -- exact E.
        -- eapply Qlt_le_trans; [exact E | now apply Ha].
      * intros y [].
      * exists r1, r, r2.
        rewrite <- app_assoc in H. simpl in H. exact H.
    + apply Qltb_false in E.
      destruct (IH before (after ++ [x]) best) as (r1 & r & r2 & H).
      * intros y Hy. apply Hf.
        rewrite <- app_assoc in Hy. simpl in Hy. exact Hy.
      * exact Hb.
      * intros y Hy. apply in_app_or in Hy as [Hy|[<-|[]]].
        -- now apply Ha.
        -- exact E.
      * exists r1, r, r2.
        rewrite <- app_assoc in H. simpl in H. exact H.
Qed.

Lemma min_first (l : list A) :
  l <> [] ->
  (forall x, In x l -> f x = Some (g x)) ->
  exists r1 r r2,
    Py.min f l = Ok r /\ l = r1 ++ r :: r2 /\
    (forall x, In x r1 -> (g r < g x)%Q) /\
    (forall x, In x r2 -> (g r <= g x)%Q).
Proof.
  destruct l as [|x l]; [congruence|]. intros _ Hf.
  apply (min_loop_first l [] [] x); simpl; [exact Hf| |]; intros y [].
Qed.

End MinFirst.

(** ** Columns of the log *)

Lemma nunique_all_equal (col : list Z) :
  (forall a b, In a col -> In b col -> a = b) -> nunique col <= 1.
Proof.
  intros H. unfold nunique, len.
  assert (L : (List.length (nodup Z.eq_dec col) <= 1)%nat); [|lia].
  destruct (nodup Z.eq_dec col) as [|a [|b l]] eqn:E; simpl; [lia|lia|].
  exfalso.
  assert (N : NoDup (a :: b :: l)) by (rewrite <- E; apply NoDup_nodup).
  assert (Ia : In a col) by (apply (nodup_In Z.eq_dec); rewrite E; now left).
  assert (Ib : In b col)
    by (apply (nodup_In Z.eq_dec); rewrite E; right; now left).
  inversion N as [|? ? Hn _]; subst. apply Hn. left. now apply H.
Qed.

Lemma nunique_two (col : list Z) (a b : Z) :
  a <> b -> In a col -> In b col -> 2 <= nunique col.
Proof.
  intros Hab Ia Ib. unfold nunique, len.
  assert (L : (List.length [a; b] <= List.length (nodup Z.eq_dec col))%nat).
  { apply NoDup_incl_length.
    - constructor; [simpl; intuition congruence|].
      constructor; [simpl; tauto | constructor].
    - intros x [<-|[<-|[]]]; now apply nodup_In. }
  simpl in L. lia.
Qed.

Lemma nunique_two_inv (col : list Z) :
  2 <= nunique col -> exists a b, a <> b /\ In a col /\ In b col.
Proof.
  unfold nunique, len. intros H.
  destruct (nodup Z.eq_dec col) as [|a [|b l]] eqn:E; simpl in H; try lia.
  assert (N : NoDup (a :: b :: l)) by (rewrite <- E; apply NoDup_nodup).
  exists a, b. repeat split.
  - intros ->. inversion N as [|? ? Hn _]; subst. apply Hn. now left.
  - apply (nodup_In Z.eq_dec). rewrite E. now left.
  - apply (nodup_In Z.eq_dec). rewrite E. right. now left.
Qed.

(** ** The encoder *)

Lemma insert_In (x y : string) (l : list string) :
  In y (OneHotEncoder.insert x l) <-> y = x \/ In y l.
Proof.
  induction l as [|z l IH]; simpl.
  - intuition.
  - destruct (String.compare x z) eqn:E; simpl.
    + apply String.compare_eq_iff in E. subst. intuition.
    + intuition.
    + rewrite IH. intuition.
Qed.

Lemma unique_In (y : string) (col : list string) :
  In y (OneHotEncoder.unique col) <-> In y col.
Proof.
  unfold OneHotEncoder.unique.
  induction col as [|x col IH]; simpl; [tauto|].
  rewrite insert_In, IH. intuition.
Qed.

Lemma one_hot_unknown (categories : list string) (v : string) :
  ~ In v categories ->
  OneHotEncoder.one_hot categories v
  = repeat 0%Q (List.length categories).
Proof.
  unfold OneHotEncoder.one_hot.
  induction categories as [|c cs IH]; simpl; [reflexivity|].
  intros H. rewrite IH by tauto.
  destruct (String.eqb c v) eqn:E; [|reflexivity].
  apply String.eqb_eq in E. subst. tauto.
Qed.

(** ** The selector *)

Section SelectorProperties.

Variable LogisticRegression : Type.
Variable fit : list (list Q) -> list Z -> result LogisticRegression.
Variable predict_proba :
  LogisticRegression -> list (list Q) -> result (list (list Q)).

Local Abbreviation train := (train_adaptive_model LogisticRegression fit).
Local Abbreviation select :=
  (select_adaptive_difficulty LogisticRegression predict_proba).
Local Abbreviation predictions_of :=
  (build_predictions LogisticRegression predict_proba).
Local Abbreviation predicted_of :=
  (predicted LogisticRegression predict_proba).

(** The [try]/[except] of one loop iteration stores one value. *)
Lemma try_setitem (model : LogisticRegression) (enc : OneHotEncoder.t)
    (d : dict Q) (t df : string) :
  try_except
    (prob <- predict_correct LogisticRegression predict_proba model enc t df ;;
     Ok (setitem d (combo_key t df) prob))
    (setitem d (combo_key t df) (1 # 2)%Q)
  = setitem d (combo_key t df) (predicted_of model enc (t, df)).
Proof.
  unfold predicted. simpl.
  destruct (predict_correct _ _ model enc t df); reflexivity.
Qed.

(** The loops visit the nine combinations in order and store one
    entry for each. *)
Lemma build_predictions_eq (model : LogisticRegression)
    (enc : OneHotEncoder.t) :
  predictions_of model enc
  = map (fun c => (combo_key (fst c) (snd c), predicted_of model enc c))
        combinations.
Proof.
  unfold build_predictions, topics, difficulties. cbn [fold_left].
  rewrite !try_setitem. reflexivity.
Qed.

Lemma keys_predictions (model : LogisticRegression) (enc : OneHotEncoder.t) :
  keys (predictions_of model enc)
  = map (fun c => combo_key (fst c) (snd c)) combinations.
Proof.
  rewrite build_predictions_eq. unfold keys. rewrite map_map. reflexivity.
Qed.

Lemma get_predictions (model : LogisticRegression) (enc : OneHotEncoder.t)
    (c : string * string) :
  In c combinations ->
  get (predictions_of model enc) (combo_key (fst c) (snd c))
  = Some (predicted_of model enc c).
Proof.
  rewrite build_predictions_eq. unfold combinations, topics, difficulties.
  simpl. intros H.
  repeat (destruct H as [<-|H]; [reflexivity|]). destruct H.
Qed.

Lemma split_combination (c : string * string) :
  In c combinations ->
  unpack2 (split1 "_" (combo_key (fst c) (snd c))) = Ok c.
Proof.
  destruct c as [t d]. intros H. apply in_combinations in H as [Ht _].
  simpl. apply split1_combo_key. now apply topics_no_underscore.
Qed.

(** With a model, the selector returns the first weakest combination. *)
Lemma select_first_weakest (model : LogisticRegression)
    (enc : OneHotEncoder.t) :
  exists before c after,
    combinations = before ++ c :: after /\
    select (Some model) (Some enc) = Ok c /\
    (forall c', In c' before ->
       (predicted_of model enc c < predicted_of model enc c')%Q) /\
    (forall c', In c' after ->
       (predicted_of model enc c <= predicted_of model enc c')%Q).
Proof.
  set (preds := predictions_of model enc).
  set (g := fun k => match get preds k with Some v => v | None => 0%Q end).
  assert (Hg : forall c', In c' combinations ->
             g (combo_key (fst c') (snd c')) = predicted_of model enc c').
  { intros c' Hc. unfold g, preds. now rewrite get_predictions. }
  destruct (min_first (get preds) g (keys preds)) as (r1 & r & r2 & H).
  - unfold preds. rewrite keys_predictions. discriminate.
  - unfold preds at 1. rewrite keys_predictions. intros k Hk.
    apply in_map_iff in Hk as (c' & <- & Hc).
    unfold preds. rewrite get_predictions by assumption.
    now rewrite Hg.
  - destruct H as (Hmin & Hsplit & Hlt & Hle).
    unfold preds in Hsplit. rewrite keys_predictions in Hsplit.
    apply map_eq_app in Hsplit as (before & rest & Hc & Hb & Hr).
    apply map_eq_cons in Hr as (c & after & -> & Hkey & Ha).
    assert (Hin : forall c', In c' (before ++ c :: after) ->
                    In c' combinations) by (now rewrite Hc).
    exists before, c, after. split; [exact Hc|]. split.
    + unfold select_adaptive_difficulty. fold preds. rewrite Hmin. simpl.
      rewrite <- Hkey, split_combination; [now destruct c|].
      apply Hin, in_or_app. right. now left.
    + assert (Hgc : g r = predicted_of model enc c).
      { rewrite <- Hkey. apply Hg, Hin, in_or_app. right. now left. }
      split; intros c' Hc'.
      * rewrite <- Hgc, <- (Hg c').
        -- apply Hlt. rewrite <- Hb. apply in_map_iff. now exists c'.
        -- apply Hin, in_or_app. now left.
      * rewrite <- Hgc, <- (Hg c').
        -- apply Hle. rewrite <- Ha. apply in_map_iff. now exists c'.
        -- apply Hin, in_or_app. right. now right.
Qed.

(** What [train_adaptive_model] does on an existing log file. *)
Lemma train_unfold (log_data : list ResponseRecord) :
  train (Some log_data)
  = if insufficient log_data then Ok (None, None)
    else model <- fit (training_X log_data) (training_y log_data) ;;
         Ok (Some model,
             Some (OneHotEncoder.fit (training_pairs log_data))).
Proof. reflexivity. Qed.

Lemma insufficient_true (log_data : list ResponseRecord) :
  insufficient log_data = true <->
  len log_data < 3 \/ nunique (map answered_correct log_data) < 2.
Proof.
  unfold insufficient. rewrite orb_true_iff, !Z.ltb_lt. reflexivity.
Qed.

Lemma all_equal_insufficient (log_data : list ResponseRecord) :
  (forall r r', In r log_data -> In r' log_data ->
     answered_correct r = answered_correct r') ->
  insufficient log_data = true.
Proof.
  intros H. apply insufficient_true. right.
  assert (nunique (map answered_correct log_data) <= 1); [|lia].
  apply nunique_all_equal. intros a b Ha Hb.
  apply in_map_iff in Ha as (r & <- & Hr).
  apply in_map_iff in Hb as (r' & <- & Hr'). now apply H.
Qed.

Lemma mixed_sufficient (log_data : list ResponseRecord) :
  3 <= len log_data ->
  (exists r r', In r log_data /\ In r' log_data /\
     answered_correct r <> answered_correct r') ->
  insufficient log_data = false.
Proof.
  intros Hlen (r & r' & Hr & Hr' & Hne).
  destruct (insufficient log_data) eqn:E; [|reflexivity].
  apply insufficient_true in E as [E|E]; [lia|].
  assert (2 <= nunique (map answered_correct log_data)); [|lia].
  apply (nunique_two _ _ _ Hne); now apply in_map.
Qed.

(** C1. With fewer than 3 records, or with all outcomes equal, training
    returns the null model [(None, None)], and the selector given a
    null model returns the default (World War I, Easy). With at least
    3 records and both a correct (1) and an incorrect (0) outcome,
    training does not return the null model: it returns exactly what
    the fit returns, paired with the encoder fitted on the log. *)
Theorem train_null_model_iff_insufficient_log (log_data : list ResponseRecord) :
  (len log_data < 3 \/
   (forall r r', In r log_data -> In r' log_data ->
      answered_correct r = answered_correct r') ->
   train (Some log_data) = Ok (None, None) /\
   (forall enc, select None enc = Ok ("World War I", "Easy")) /\
   (forall model, select model None = Ok ("World War I", "Easy")))
  /\
  (3 <= len log_data ->
   (exists r, In r log_data /\ answered_correct r = 1) ->
   (exists r, In r log_data /\ answered_correct r = 0) ->
   train (Some log_data) <> Ok (None, None) /\
   forall model,
     fit (training_X log_data) (training_y log_data) = Ok model ->
     train (Some log_data)
     = Ok (Some model, Some (OneHotEncoder.fit (training_pairs log_data)))).
Proof.
  split.
  - intros H. split; [|split].
    + rewrite train_unfold.
      assert (E : insufficient log_data = true).
      { destruct H as [H|H].
        - apply insufficient_true. now left.
        - now apply all_equal_insufficient. }
      now rewrite E.
    + reflexivity.
    + now intros [m|].
  - intros Hlen (r & Hr & H1) (r' & Hr' & H0).
    assert (E : insufficient log_data = false).
    { apply mixed_sufficient; [assumption|].
      exists r, r'. repeat split; try assumption. lia. }
    rewrite train_unfold, E. split.
    + destruct (fit _ _); simpl; discriminate.
    + intros model ->. reflexivity.
Qed.

(** C2. With a model, the selector fills one prediction for each of the
    9 combinations in the order topics outer, difficulties inner, and
    returns a combination whose predicted probability is strictly
    below that of every combination before it in that order and at
    most that of every combination after it: the first minimum. *)
Theorem select_returns_first_minimum (model : LogisticRegression)
    (enc : OneHotEncoder.t) :
  combinations
  = [("World War I", "Easy"); ("World War I", "Medium");
     ("World War I", "Hard"); ("World War II", "Easy");
     ("World War II", "Medium"); ("World War II", "Hard");
     ("World Wars General", "Easy"); ("World Wars General", "Medium");
     ("World Wars General", "Hard")] /\
  predictions_of model enc
  = map (fun c => (combo_key (fst c) (snd c), predicted_of model enc c))
        combinations /\
  exists before c after,
    combinations = before ++ c :: after /\
    select (Some model) (Some enc) = Ok c /\
    (forall c', In c' before ->
       (predicted_of model enc c < predicted_of model enc c')%Q) /\
    (forall c', In c' after ->
       (predicted_of model enc c <= predicted_of model enc c')%Q).
Proof.
  split; [reflexivity|]. split; [apply build_predictions_eq|].
  apply select_first_weakest.
Qed.

(** C7, as the code has it. The encoder never fails on a value it has
    not seen: with [handle_unknown="ignore"] an unseen topic or
    difficulty is encoded as a block of zeros. The probability stored
    for a combination is the model's prediction for that encoding,
    whether or not the combination occurred in training; 0.5 is stored
    exactly when the prediction raises. *)
Theorem unseen_combination_uses_model_prediction
    (model : LogisticRegression) (log_data : list ResponseRecord)
    (c : string * string) :
  In c combinations ->
  let enc := OneHotEncoder.fit (training_pairs log_data) in
  (~ In (fst c) (map topic log_data) ->
   OneHotEncoder.one_hot (OneHotEncoder.categories_topic enc) (fst c)
   = repeat 0%Q (List.length (OneHotEncoder.categories_topic enc))) /\
  (~ In (snd c) (map difficulty log_data) ->
   OneHotEncoder.one_hot (OneHotEncoder.categories_difficulty enc) (snd c)
   = repeat 0%Q (List.length (OneHotEncoder.categories_difficulty enc))) /\
  (forall p,
     predict_correct LogisticRegression predict_proba model enc
                     (fst c) (snd c) = Ok p ->
     get (predictions_of model enc) (combo_key (fst c) (snd c)) = Some p) /\
  (forall e,
     predict_correct LogisticRegression predict_proba model enc
                     (fst c) (snd c) = Raise e ->
     get (predictions_of model enc) (combo_key (fst c) (snd c))
     = Some (1 # 2)%Q).
Proof.
  intros Hc enc. repeat split.
  - intros H. apply one_hot_unknown. unfold enc. simpl.
    rewrite unique_In. unfold training_pairs. rewrite map_map. exact H.
  - intros H. apply one_hot_unknown. unfold enc. simpl.
    rewrite unique_In. unfold training_pairs. rewrite map_map. exact H.
  - intros p Hp. rewrite get_predictions by assumption.
    unfold predicted. now rewrite Hp.
  - intros e He. rewrite get_predictions by assumption.
    unfold predicted. now rewrite He.
Qed.

(** C9, as the code has it. Training returns the null model exactly
    when the log is insufficient. When the log is sufficient and the
    fit raises, [train_adaptive_model] raises the same exception: it
    is not turned into a null model, and the request for the next
    question ends by that exception before anything is selected. *)
Theorem train_propagates_fit_failure (log_data : list ResponseRecord)
    (e : exn) :
  insufficient log_data = false ->
  fit (training_X log_data) (training_y log_data) = Raise e ->
  train (Some log_data) = Raise e /\
  (forall log_data',
     train (Some log_data') = Ok (None, None) <->
     insufficient log_data' = true) /\
  (forall inp s,
     current_question s = None -> num_questions s < MAX_QUESTIONS ->
     generate_next LogisticRegression fit predict_proba inp
                   (mkWorld s (Some log_data))
     = (Raise e, mkWorld s (Some log_data))).
Proof.
  intros Hs Hfit. split; [|split].
  - now rewrite train_unfold, Hs, Hfit.
  - intros l. rewrite train_unfold.
    destruct (insufficient l); [tauto|].
    destruct (fit (training_X l) (training_y l)); simpl; split;
      intros H; discriminate H.
  - intros inp s Hq Hn. unfold generate_next, sbind, get_session, get_file.
    simpl. rewrite Hq. apply Z.ltb_lt in Hn. rewrite Hn.
    unfold lift. cbn [log_file]. now rewrite train_unfold, Hs, Hfit.
Qed.

(** C10. For each of the 9 combinations, splitting the key
    [topic_difficulty] at the first underscore gives back the topic
    and the difficulty (no topic contains an underscore), and with a
    model the selector returns one of the 9 combinations. *)
Theorem split_key_recovers_combination :
  (forall t, In t topics -> has_char "_" t = false) /\
  (forall t d, In t topics -> In d difficulties ->
     split1 "_" (combo_key t d) = [t; d] /\
     unpack2 (split1 "_" (combo_key t d)) = Ok (t, d)) /\
  (forall model enc, exists t d,
     select (Some model) (Some enc) = Ok (t, d) /\
     In t topics /\ In d difficulties).
Proof.
  split; [exact topics_no_underscore|]. split.
  - intros t d Ht Hd.
    assert (E : split1 "_" (combo_key t d) = [t; d]).
    { unfold combo_key. change ("_" ++ d)%string with (String "_" d).
      apply split1_append. now apply topics_no_underscore. }
    now rewrite E.
  - intros model enc.
    destruct (select_first_weakest model enc)
      as (before & [t d] & after & Hc & Hsel & _).
    exists t, d. split; [exact Hsel|].
    apply in_combinations. rewrite Hc. apply in_or_app. right. now left.
Qed.

End SelectorProperties.

(** ** The session *)

(** The radio labels start with their number. *)
Lemma radio_selected (q_data : Question) (r : RadioOption) :
  int (split_head "." (st_radio (options_numbered q_data) r))
  = Ok (Z.of_nat (radio_index r) + 1).
Proof. destruct r; reflexivity. Qed.

Lemma radio_in_range (r : RadioOption) :
  1 <= Z.of_nat (radio_index r) + 1 <= 4.
Proof. destruct r; simpl; lia. Qed.


(** Line 406 finds an option to show for every correct answer it can
    index, from either end of the list. *)
Lemma getitem_options (q_data : Question) (c : Z) :
  -3 <= c <= 4 -> exists o, getitem (options q_data) (c - 1) = Ok o.
Proof.
  intros H.
  assert (E : c = -3 \/ c = -2 \/ c = -1 \/ c = 0 \/
              c = 1 \/ c = 2 \/ c = 3 \/ c = 4) by lia.
  repeat (destruct E as [->|E]; [eexists; reflexivity|]).
  subst. eexists; reflexivity.
Qed.

Ltac unfold_script :=
  unfold submit_answer, next_question_button, take_quiz_again,
    do_log_result, set_score, set_current_question, set_answered,
    set_num_questions, put_session, get_session, put_file, get_file,
    lift, sbind, sret in *.

(** The handler grades whatever index it parses. *)
Lemma submit_answer_graded (choice : string) (selected : Z)
    (q_data : Question) (s : SessionState) (rows : list ResponseRecord) :
  int (split_head "." choice) = Ok selected ->
  answered s = false ->
  selected = correct_answer q_data \/ -3 <= correct_answer q_data <= 4 ->
  submit_answer true choice q_data (mkWorld s (Some rows))
  = (Ok tt, graded selected q_data s rows).
Proof.
  intros Hint Hans Hc. unfold graded, verdict. unfold_script.
  cbn [session_state log_file]. rewrite Hans, Hint. cbn [andb negb].
  destruct (selected =? correct_answer q_data) eqn:E.
  - reflexivity.
  - cbn [Z.eqb negb].
    apply Z.eqb_neq in E. destruct Hc as [Hc|Hc]; [contradiction|].
    destruct (getitem_options q_data _ Hc) as (o & ->).
    cbn. now rewrite Z.add_0_r.
Qed.

Lemma submit_answer_noop (clicked : bool) (choice : string)
    (q_data : Question) (w : World) :
  answered (session_state w) = true ->
  submit_answer clicked choice q_data w = (Ok tt, w).
Proof.
  intros H. unfold_script. rewrite H.
  now rewrite andb_false_r.
Qed.

(** *** Bounds kept by every run *)

Lemma submit_answer_bounds (clicked : bool) (choice : string)
    (q_data : Question) (w : World) :
  page_ok w -> num_questions (session_state w) < MAX_QUESTIONS ->
  page_ok (snd (submit_answer clicked choice q_data w)) /\
  num_questions (session_state (snd (submit_answer clicked choice q_data w)))
  = num_questions (session_state w).
Proof.
  destruct w as [[sc cq an nq] [rows|]]; unfold page_ok, file_exists;
    cbn [session_state log_file]; [|intros [_ H]; now elim H].
  unfold score_bounds, pending, MAX_QUESTIONS. cbn [score num_questions answered].
  intros [H _] Hn. unfold_script. cbn [session_state log_file answered].
  destruct (clicked && negb an) eqn:E; cbn.
  - apply andb_true_iff in E as [_ E]. apply negb_true_iff in E. subst an.
    destruct (int (split_head "." choice)) as [selected|e]; cbn.
    + destruct (selected =? correct_answer q_data); cbn.
      * repeat split; try lia; discriminate.
      * destruct (getitem (options q_data) (correct_answer q_data - 1)); cbn;
          repeat split; try lia; discriminate.
    + repeat split; try lia; discriminate.
  - repeat split; try lia; discriminate.
Qed.

Lemma next_question_button_bounds (clicked : bool) (w : World) :
  page_ok w -> num_questions (session_state w) < MAX_QUESTIONS ->
  page_ok (snd (next_question_button clicked w)).
Proof.
  destruct w as [[sc cq an nq] fs]; unfold page_ok, file_exists.
  unfold score_bounds, pending, MAX_QUESTIONS.
  cbn [session_state log_file score num_questions answered].
  intros [H F] Hn. unfold_script. cbn [session_state log_file answered].
  destruct an, clicked; cbn; repeat split; try lia; exact F.
Qed.

Lemma take_quiz_again_bounds (clicked : bool) (w : World) :
  page_ok w -> page_ok (snd (take_quiz_again clicked w)).
Proof.
  destruct w as [s fs]; unfold page_ok, file_exists. intros [H F].
  unfold_script. destruct clicked; cbn; [|now split].
  split; [|exact F]. unfold score_bounds, pending, MAX_QUESTIONS. cbn. lia.
Qed.

Lemma quiz_page_bounds (inp : Inputs) (w : World) :
  page_ok w -> page_ok (snd (quiz_page inp w)).
Proof.
  intros H. unfold quiz_page. unfold sbind at 1. unfold get_session at 1.
  destruct (current_question (session_state w)) as [q_data|];
    [|now apply take_quiz_again_bounds].
  destruct (num_questions (session_state w) <? MAX_QUESTIONS) eqn:E;
    [|now apply take_quiz_again_bounds].
  apply Z.ltb_lt in E. unfold sbind.
  destruct (submit_answer_bounds (submit_clicked inp)
              (st_radio (options_numbered q_data) (radio inp)) q_data w H E)
    as [H1 H2].
  destruct (submit_answer _ _ _ w) as [[[]|e] w1]; cbn [snd] in *.
  - apply next_question_button_bounds; [assumption|lia].
  - assumption.
Qed.

(** *** The log only grows *)

Lemma count_occ_appended (rows : list ResponseRecord) (r : ResponseRecord) :
  count_occ ResponseRecord_eq_dec (rows ++ [r]) r
  = S (count_occ ResponseRecord_eq_dec rows r).
Proof.
  rewrite count_occ_app. simpl.
  destruct (ResponseRecord_eq_dec r r); [lia|congruence].
Qed.

Ltac no_row :=
  exists []; rewrite app_nil_r; split; [reflexivity | simpl; lia].

Lemma submit_answer_file (clicked : bool) (choice : string)
    (q_data : Question) (w : World) (rows : list ResponseRecord) :
  log_file w = Some rows ->
  exists added,
    log_file (snd (submit_answer clicked choice q_data w))
    = Some (rows ++ added) /\ (List.length added <= 1)%nat.
Proof.
  destruct w as [[sc cq an nq] fs]. cbn [log_file]. intros ->.
  unfold_script. cbn [session_state log_file answered].
  destruct (clicked && negb an); cbn;
    [|no_row].
  destruct (int (split_head "." choice)) as [selected|e]; cbn;
    [|no_row].
  destruct (selected =? correct_answer q_data); cbn.
  - eexists [_]. split; [reflexivity|simpl; lia].
  - destruct (getitem (options q_data) (correct_answer q_data - 1)); cbn.
    + eexists [_]. split; [reflexivity|simpl; lia].
    + no_row.
Qed.

Lemma next_question_button_file (clicked : bool) (w : World) :
  log_file (snd (next_question_button clicked w)) = log_file w.
Proof.
  destruct w as [[sc cq an nq] fs]. unfold_script.
  cbn [session_state answered]. destruct an, clicked; reflexivity.
Qed.

Lemma take_quiz_again_file (clicked : bool) (w : World) :
  log_file (snd (take_quiz_again clicked w)) = log_file w.
Proof. destruct clicked; reflexivity. Qed.

Lemma quiz_page_file (inp : Inputs) (w : World) (rows : list ResponseRecord) :
  log_file w = Some rows ->
  exists added,
    log_file (snd (quiz_page inp w)) = Some (rows ++ added) /\
    (List.length added <= 1)%nat.
Proof.
  intros H.
  assert (Same : forall w', log_file w' = log_file w ->
            exists added, log_file w' = Some (rows ++ added) /\
                          (List.length added <= 1)%nat).
  { intros w' ->. rewrite H. no_row. }
  unfold quiz_page. unfold sbind at 1. unfold get_session at 1.
  destruct (current_question (session_state w)) as [q_data|];
    [|apply Same, take_quiz_again_file].
  destruct (num_questions (session_state w) <? MAX_QUESTIONS);
    [|apply Same, take_quiz_again_file].
  unfold sbind.
  destruct (submit_answer_file (submit_clicked inp)
              (st_radio (options_numbered q_data) (radio inp)) q_data w rows H)
    as (added & Hf & Hl).
  destruct (submit_answer _ _ _ w) as [[[]|e] w1]; cbn [snd] in *.
  - exists added. now rewrite next_question_button_file.
  - now exists added.
Qed.

Section SessionProperties.

Variable LogisticRegression : Type.
Variable fit : list (list Q) -> list Z -> result LogisticRegression.
Variable predict_proba :
  LogisticRegression -> list (list Q) -> result (list (list Q)).

Local Abbreviation generate :=
  (generate_next LogisticRegression fit predict_proba).
Local Abbreviation run := (run_script LogisticRegression fit predict_proba).
Local Abbreviation step_of := (step LogisticRegression fit predict_proba).
Local Abbreviation reachable_in :=
  (reachable LogisticRegression fit predict_proba).

(** Asking for the next question only ever sets [current_question]. *)
Lemma generate_next_frame (inp : Inputs) (w : World) :
  let w' := snd (generate inp w) in
  log_file w' = log_file w /\
  score (session_state w') = score (session_state w) /\
  answered (session_state w') = answered (session_state w) /\
  num_questions (session_state w') = num_questions (session_state w).
Proof.
  destruct w as [[sc cq an nq] fs]. unfold generate_next. unfold_script.
  cbn [session_state log_file current_question num_questions].
  destruct cq; [now cbn|].
  destruct (nq <? MAX_QUESTIONS); [|now cbn].
  cbn [session_state log_file].
  destruct (train_adaptive_model _ fit fs) as [[model enc]|e]; [|now cbn].
  destruct (select_adaptive_difficulty _ predict_proba model enc)
    as [[t d]|e]; [|now cbn].
  destruct (generated inp t d); now cbn.
Qed.

Lemma generate_next_bounds (inp : Inputs) (w : World) :
  page_ok w -> page_ok (snd (generate inp w)).
Proof.
  intros [H F]. destruct (generate_next_frame inp w) as (Hf & Hs & Ha & Hn).
  split.
  - unfold score_bounds, pending in *. rewrite Hs, Ha, Hn. exact H.
  - unfold file_exists. now rewrite Hf.
Qed.

Lemma run_script_bounds (inp : Inputs) (w : World) :
  score_bounds (session_state w) ->
  score_bounds (session_state (step_of inp w)).
Proof.
  intros H. unfold step, run_script.
  unfold sbind at 1. unfold get_file at 1.
  unfold sbind at 1. unfold put_file at 1.
  set (w0 := mkWorld (session_state w) (init_log_file (log_file w))).
  assert (H0 : page_ok w0).
  { split; [exact H|]. unfold file_exists, w0. cbn.
    destruct (log_file w); discriminate. }
  destruct (api_key inp); [|exact H].
  unfold sbind.
  pose proof (generate_next_bounds inp w0 H0) as H1.
  destruct (generate inp w0) as [[[]|e] w1]; cbn [snd] in *.
  - now apply quiz_page_bounds.
  - apply H1.
Qed.

Lemma reachable_bounds (w : World) :
  reachable_in w -> score_bounds (session_state w).
Proof.
  induction 1 as [fs|inp w _ IH].
  - unfold score_bounds, pending, MAX_QUESTIONS. cbn. lia.
  - now apply run_script_bounds.
Qed.

Lemma run_script_file (inp : Inputs) (w : World) :
  exists added,
    log_file (step_of inp w) = Some (rows_of (log_file w) ++ added) /\
    (List.length added <= 1)%nat.
Proof.
  unfold step, run_script.
  unfold sbind at 1. unfold get_file at 1.
  unfold sbind at 1. unfold put_file at 1.
  set (w0 := mkWorld (session_state w) (init_log_file (log_file w))).
  assert (H0 : log_file w0 = Some (rows_of (log_file w))).
  { unfold w0. cbn. now destruct (log_file w). }
  destruct (api_key inp);
    [|cbn [sret snd]; rewrite H0; no_row].
  unfold sbind.
  destruct (generate_next_frame inp w0) as (Hf & _).
  destruct (generate inp w0) as [[[]|e] w1]; cbn [snd] in *.
  - apply quiz_page_file. now rewrite Hf.
  - rewrite Hf, H0. no_row.
Qed.

End SessionProperties.

(** *** The submit handler *)

Lemma submit_answer_ok_answered (choice : string) (q_data : Question)
    (w : World) :
  fst (submit_answer true choice q_data w) = Ok tt ->
  answered (session_state (snd (submit_answer true choice q_data w))) = true.
Proof.
  destruct w as [[sc cq an nq] fs]. unfold_script.
  cbn [session_state log_file answered andb].
  destruct an; cbn; [reflexivity|].
  destruct (int (split_head "." choice)) as [selected|e]; cbn;
    [|discriminate].
  destruct (selected =? correct_answer q_data); cbn.
  - destruct fs; cbn; [reflexivity|discriminate].
  - destruct (getitem (options q_data) (correct_answer q_data - 1)); cbn;
      [|discriminate].
    destruct fs; cbn; [reflexivity|discriminate].
Qed.

(** C4. When [answered] is true, the submit handler does nothing: the
    world (score, number of questions, log) is returned as it was, no
    answer is graded and no row is written. In particular a second
    submission right after a first one leaves everything as the first
    one left it. *)
Theorem submit_when_answered_changes_nothing :
  (forall clicked choice q_data w,
     answered (session_state w) = true ->
     submit_answer clicked choice q_data w = (Ok tt, w)) /\
  (forall first second q_data w,
     fst (submit_answer true first q_data w) = Ok tt ->
     let w1 := snd (submit_answer true first q_data w) in
     submit_answer true second q_data w1 = (Ok tt, w1)).
Proof.
  split.
  - intros. now apply submit_answer_noop.
  - intros first second q_data w H w1.
    apply submit_answer_noop. now apply submit_answer_ok_answered.
Qed.

(** C5. On a pending question (not yet answered, correct answer in
    1-4) and for every option of the radio, the first submission ends
    normally; the index graded is the number of the option, in 1-4;
    the score grows by 1 when that index equals [correct_answer] and
    stays as it was otherwise; exactly one row, built from the
    question, the verdict and the index, is added at the end of the
    log; [answered] becomes true and nothing else changes. *)
Theorem first_submit_grades_and_logs_one_row (r : RadioOption)
    (q_data : Question) (s : SessionState) (rows : list ResponseRecord) :
  current_question s = Some q_data ->
  answered s = false ->
  1 <= correct_answer q_data <= 4 ->
  let selected := Z.of_nat (radio_index r) + 1 in
  let correct := selected =? correct_answer q_data in
  1 <= selected <= 4 /\
  submit_answer true (st_radio (options_numbered q_data) r) q_data
                (mkWorld s (Some rows))
  = (Ok tt,
     mkWorld
       (mkSession (score s + (if correct then 1 else 0)) (Some q_data) true
                  (num_questions s))
       (Some (rows ++ [mkRecord (q_topic q_data) (q_difficulty q_data)
                                (if correct then 1 else 0) selected
                                (q_question_id q_data)]))) /\
  (score s + (if correct then 1 else 0) = score s + 1 <->
   selected = correct_answer q_data).
Proof.
  intros Hq Ha Hc selected correct. split; [apply radio_in_range|]. split.
  - rewrite (submit_answer_graded _ selected); try assumption.
    + unfold graded, verdict. now rewrite Hq.
    + apply radio_selected.
    + right. lia.
  - unfold correct. destruct (Z.eqb_spec selected (correct_answer q_data));
      split; intros; try reflexivity; try assumption; lia.
Qed.

(* ================================================================== *)
(** * Examples *)
(* ================================================================== *)

Local Abbreviation train_ex :=
  (train_adaptive_model Example.LinearModel Example.fit).
Local Abbreviation select_ex :=
  (select_adaptive_difficulty Example.LinearModel Example.predict_proba).
Local Abbreviation step_ex :=
  (step Example.LinearModel Example.fit Example.predict_proba).

(** The scenario of the spec: three records, both outcomes. *)
Example train_log3 :
  train_ex (Some Example.log3)
  = Ok (Some (Example.mkLinear [0; 0; 0; 0]%Q (1 # 3)%Q),
        Some (OneHotEncoder.mk ["World War I"; "World War II"]
                               ["Easy"; "Hard"])).
Proof. reflexivity. Qed.

Example select_model9 :
  select_ex (Some Example.model9) (Some Example.encoder9)
  = Ok ("World War II", "Medium").
Proof. reflexivity. Qed.

(** A tie between all nine goes to the first. *)
Example select_tie :
  select_ex (Some (Example.mkLinear [] 0%Q)) (Some Example.encoder9)
  = Ok ("World War I", "Easy").
Proof. reflexivity. Qed.

(** A correct answer that indexes no option: a wrong choice raises at
    line 406, before anything is written. *)
Example submit_unindexable_correct_answer :
  let q_data := mkQuestion "q" "a" "b" "c" "d" 9 "e" "World War I" "Easy"
                           "World War I_Easy_0" in
  let w := mkWorld (mkSession 0 (Some q_data) false 0) (Some []) in
  submit_answer true "1. a" q_data w = (Raise IndexError, w).
Proof. reflexivity. Qed.

Lemma train_null_model_iff_insufficient_log_witness :
  (train_ex (Some (firstn 2 Example.log3)) = Ok (None, None) /\
   (forall enc, select_ex None enc = Ok ("World War I", "Easy")) /\
   (forall model, select_ex model None = Ok ("World War I", "Easy"))) /\
  (train_ex (Some Example.log3) <> Ok (None, None) /\
   forall model,
     Example.fit (training_X Example.log3) (training_y Example.log3)
     = Ok model ->
     train_ex (Some Example.log3)
     = Ok (Some model,
           Some (OneHotEncoder.fit (training_pairs Example.log3)))).
Proof.
  split.
  - apply (train_null_model_iff_insufficient_log
             Example.LinearModel Example.fit Example.predict_proba
             (firstn 2 Example.log3)).
    left. reflexivity.
  - apply (train_null_model_iff_insufficient_log
             Example.LinearModel Example.fit Example.predict_proba
             Example.log3).
    + discriminate.
    + exists (mkRecord "World War I" "Easy" 1 2 "World War I_Easy_0").
      split; [left; reflexivity | reflexivity].
    + exists (mkRecord "World War I" "Easy" 0 1 "World War I_Easy_1").
      split; [right; left; reflexivity | reflexivity].
Defined.

(** The world after a first question was shown and answered
    correctly: one point, no question counted yet. *)
Lemma correct_submit_breaks_spec_invariant :
  exists w,
    reachable Example.LinearModel Example.fit Example.predict_proba w /\
    score (session_state w) = 1 /\
    num_questions (session_state w) = 0 /\
    ~ spec_invariant (session_state w).
Proof.
  exists (step_ex Example.submit_third
            (step_ex Example.no_click (mkWorld initial_session None))).
  split; [apply reachable_step, reachable_step, reachable_init|].
  split; [reflexivity|]. split; [reflexivity|].
  intros (_ & H & _). vm_compute in H. apply H. reflexivity.
Qed.

(** The next-question button then counts the question. *)
Example next_question_counts_it :
  session_state
    (step_ex Example.click_next
       (step_ex Example.submit_third
          (step_ex Example.no_click (mkWorld initial_session None))))
  = mkSession 1 None false 1.
Proof. reflexivity. Qed.

Lemma submit_when_answered_changes_nothing_witness :
  let w := step_ex Example.submit_third
             (step_ex Example.no_click (mkWorld initial_session None)) in
  answered (session_state w) = true /\
  submit_answer true "1. 1905" Example.q_data3 w = (Ok tt, w).
Proof.
  intros w. split; [reflexivity|].
  apply (proj1 submit_when_answered_changes_nothing). reflexivity.
Defined.

(** The scenario of the spec: the correct answer is 3 and option 3 is
    submitted. *)
Lemma first_submit_grades_and_logs_one_row_witness :
  let s := mkSession 0 (Some Example.q_data3) false 0 in
  (current_question s = Some Example.q_data3 /\ answered s = false /\
   1 <= correct_answer Example.q_data3 <= 4) /\
  submit_answer true "3. 1914" Example.q_data3 (mkWorld s (Some []))
  = (Ok tt,
     mkWorld (mkSession 1 (Some Example.q_data3) true 0)
             (Some [mkRecord "World War I" "Easy" 1 3 "World War I_Easy_0"])).
Proof.
  intros s. split; [repeat split; discriminate|].
  apply (first_submit_grades_and_logs_one_row Radio2 Example.q_data3 s []);
    [reflexivity | reflexivity | split; discriminate].
Defined.

(** Trained on [log3], the encoder has seen neither the topic World
    Wars General nor the difficulty Medium; the selector stores the
    model's 5/8 for that combination, not 1/2. *)
Lemma unseen_combination_gets_model_probability :
  exists model enc,
    train_ex (Some Example.log3) = Ok (Some model, Some enc) /\
    ~ In ("World Wars General", "Medium") (training_pairs Example.log3) /\
    get (build_predictions Example.LinearModel Example.predict_proba
                           model enc)
        (combo_key "World Wars General" "Medium")
    = Some (5 # 8)%Q /\
    ~ (5 # 8 == 1 # 2)%Q.
Proof.
  eexists. eexists. split; [reflexivity|]. split.
  - simpl. intros [H|[H|[H|[]]]]; discriminate H.
  - split; [reflexivity|]. intros H. discriminate H.
Qed.

Lemma unseen_combination_uses_model_prediction_witness :
  In ("World Wars General", "Medium") combinations /\
  get (build_predictions Example.LinearModel Example.predict_proba
         (Example.mkLinear [0; 0; 0; 0]%Q (1 # 3)%Q)
         (OneHotEncoder.fit (training_pairs Example.log3)))
      (combo_key "World Wars General" "Medium")
  = Some (5 # 8)%Q.
Proof.
  assert (H : In ("World Wars General", "Medium") combinations).
  { do 7 right. left. reflexivity. }
  split; [exact H|].
  apply (unseen_combination_uses_model_prediction
           Example.LinearModel Example.predict_proba
           (Example.mkLinear [0; 0; 0; 0]%Q (1 # 3)%Q) Example.log3
           ("World Wars General", "Medium") H).
  reflexivity.
Defined.

(** A fit that raises on a sufficient log: training raises too. *)
Lemma failed_fit_is_raised_not_null :
  insufficient Example.log3 = false /\
  Example.failing_fit (training_X Example.log3) (training_y Example.log3)
  = Raise (LibraryError "fit did not converge") /\
  train_adaptive_model Example.LinearModel Example.failing_fit
                       (Some Example.log3)
  = Raise (LibraryError "fit did not converge") /\
  train_adaptive_model Example.LinearModel Example.failing_fit
                       (Some Example.log3)
  <> Ok (None, None).
Proof.
  split; [reflexivity|]. split; [reflexivity|]. split; [reflexivity|].
  discriminate.
Qed.

Lemma train_propagates_fit_failure_witness :
  (insufficient Example.log3 = false /\
   Example.failing_fit (training_X Example.log3) (training_y Example.log3)
   = Raise (LibraryError "fit did not converge")) /\
  train_adaptive_model Example.LinearModel Example.failing_fit
                       (Some Example.log3)
  = Raise (LibraryError "fit did not converge").
Proof.
  split; [split; reflexivity|].
  apply (train_propagates_fit_failure
           Example.LinearModel Example.failing_fit Example.predict_proba
           Example.log3 (LibraryError "fit did not converge"));
    reflexivity.
Defined.

Lemma split_key_recovers_combination_witness :
  (In "World Wars General" topics /\ In "Medium" difficulties) /\
  unpack2 (split1 "_" (combo_key "World Wars General" "Medium"))
  = Ok ("World Wars General", "Medium").
Proof.
  assert (Ht : In "World Wars General" topics)
    by (right; right; left; reflexivity).
  assert (Hd : In "Medium" difficulties) by (right; left; reflexivity).
  split; [split; assumption|].
  apply (proj1 (proj2 (split_key_recovers_combination
                         Example.LinearModel Example.predict_proba))
           "World Wars General" "Medium" Ht Hd).
Defined.

(* ================================================================== *)
(** * Further properties of the session *)
(* ================================================================== *)

(** ** What the handlers do, as equations *)

Lemma getitem_options_out (q_data : Question) (c : Z) :
  c < -3 \/ 4 < c -> getitem (options q_data) (c - 1) = Raise IndexError.
Proof.
  intros H. unfold getitem, options.
  change (Z.of_nat (List.length [option1 q_data; option2 q_data;
                                 option3 q_data; option4 q_data])) with 4.
  destruct (Z.ltb_spec (c - 1) 0) as [Hneg|Hneg].
  - destruct (Z.leb_spec 0 (c - 1 + 4)); [lia|reflexivity].
  - destruct (Z.leb_spec 0 (c - 1)); [|lia].
    destruct (Z.ltb_spec (c - 1) 4); [lia|reflexivity].
Qed.

(** The submit handler on a label of the radio and an existing log. *)
Lemma submit_answer_radio (clicked : bool) (r : RadioOption)
    (q_data : Question) (s : SessionState) (rows : list ResponseRecord) :
  let selected := Z.of_nat (radio_index r) + 1 in
  submit_answer clicked (st_radio (options_numbered q_data) r) q_data
                (mkWorld s (Some rows))
  = if clicked && negb (answered s) then
      if (selected =? correct_answer q_data)
         || indexable (correct_answer q_data)
      then (Ok tt, graded selected q_data s rows)
      else (Raise IndexError, mkWorld s (Some rows))
    else (Ok tt, mkWorld s (Some rows)).
Proof.
  intros selected.
  destruct (clicked && negb (answered s)) eqn:E.
  - apply andb_true_iff in E as [-> Ha]. apply negb_true_iff in Ha.
    destruct ((selected =? correct_answer q_data)
              || indexable (correct_answer q_data)) eqn:Hc.
    + apply submit_answer_graded; [apply radio_selected | exact Ha |].
      apply orb_true_iff in Hc as [Hc|Hc].
      * left. now apply Z.eqb_eq.
      * right. unfold indexable in Hc. lia.
    + apply orb_false_iff in Hc as [Hne Hi].
      unfold_script. cbn [session_state log_file].
      rewrite Ha, radio_selected. fold selected. cbn [andb negb].
      rewrite Hne. cbn [Z.eqb negb].
      assert (Hraise : getitem (options q_data) (correct_answer q_data - 1)
                       = Raise IndexError).
      { apply getitem_options_out. unfold indexable in Hi.
        apply andb_false_iff in Hi as [Hi|Hi]; lia. }
      now rewrite Hraise.
  - unfold_script. cbn [session_state]. now rewrite E.
Qed.

Lemma next_question_button_eq (clicked : bool) (s : SessionState)
    (fs : LogStore) :
  next_question_button clicked (mkWorld s fs)
  = (Ok tt, if answered s && clicked then mkWorld (advanced s) fs
            else mkWorld s fs).
Proof.
  unfold_script. cbn [session_state]. destruct (answered s), clicked;
    reflexivity.
Qed.

Lemma take_quiz_again_eq (clicked : bool) (w : World) :
  take_quiz_again clicked w
  = (Ok tt, if clicked then mkWorld initial_session (log_file w) else w).
Proof. destruct clicked; reflexivity. Qed.

(** The page drawn: the question page when a question is current and
    fewer than [MAX_QUESTIONS] are counted, else the completion page. *)
Lemma quiz_page_question (inp : Inputs) (w : World) (q_data : Question) :
  current_question (session_state w) = Some q_data ->
  num_questions (session_state w) < MAX_QUESTIONS ->
  quiz_page inp w
  = sbind (submit_answer (submit_clicked inp)
             (st_radio (options_numbered q_data) (radio inp)) q_data)
          (fun _ => next_question_button (next_clicked inp)) w.
Proof.
  intros Hq Hn. apply Z.ltb_lt in Hn. unfold quiz_page.
  unfold sbind at 1. unfold get_session at 1. now rewrite Hq, Hn.
Qed.

Lemma quiz_page_completion (inp : Inputs) (w : World) :
  current_question (session_state w) = None \/
  MAX_QUESTIONS <= num_questions (session_state w) ->
  quiz_page inp w = take_quiz_again (again_clicked inp) w.
Proof.
  intros H. unfold quiz_page. unfold sbind at 1. unfold get_session at 1.
  destruct (current_question (session_state w)); [|reflexivity].
  destruct H as [H|H]; [discriminate|].
  apply Z.ltb_ge in H. now rewrite H.
Qed.

(** All a question page or completion page can do to a world whose
    log exists. *)
Lemma quiz_page_cases (inp : Inputs) (s : SessionState)
    (rows : list ResponseRecord) :
  let w := mkWorld s (Some rows) in
  let w' := snd (quiz_page inp w) in
  let selected := Z.of_nat (radio_index (radio inp)) + 1 in
  ((current_question s = None \/ MAX_QUESTIONS <= num_questions s) /\
   (w' = w \/ w' = mkWorld initial_session (Some rows)))
  \/
  (exists q_data,
     current_question s = Some q_data /\ num_questions s < MAX_QUESTIONS /\
     (w' = w \/
      (answered s = true /\ w' = mkWorld (advanced s) (Some rows)) \/
      (answered s = false /\ w' = graded selected q_data s rows) \/
      (answered s = false /\
       w' = mkWorld (advanced (session_state (graded selected q_data s rows)))
                    (log_file (graded selected q_data s rows))))).
Proof.
  intros w w' selected.
  destruct (current_question s) as [q_data|] eqn:Hq.
  - destruct (Z.ltb_spec (num_questions s) MAX_QUESTIONS) as [Hn|Hn].
    + right. exists q_data. split; [reflexivity|]. split; [exact Hn|].
      unfold w'. rewrite (quiz_page_question inp w q_data Hq Hn).
      unfold sbind, w. rewrite submit_answer_radio. fold selected.
      destruct (submit_clicked inp && negb (answered s)) eqn:E.
      * apply andb_true_iff in E as [_ Ha]. apply negb_true_iff in Ha.
        destruct ((selected =? correct_answer q_data)
                  || indexable (correct_answer q_data)).
        -- unfold graded at 1. rewrite next_question_button_eq.
           cbn [answered andb snd].
           destruct (next_clicked inp).
           ++ right. right. right. split; [exact Ha|reflexivity].
           ++ right. right. left. split; [exact Ha|reflexivity].
        -- left. reflexivity.
      * rewrite next_question_button_eq. cbn [snd].
        destruct (answered s) eqn:Ha; cbn [andb].
        -- destruct (next_clicked inp).
           ++ right. left. split; reflexivity.
           ++ left. reflexivity.
        -- left. reflexivity.
    + left. split; [now right|]. unfold w'.
      rewrite quiz_page_completion by (right; exact Hn).
      rewrite take_quiz_again_eq. cbn [snd].
      destruct (again_clicked inp); [right|left]; reflexivity.
  - left. split; [now left|]. unfold w'.
    rewrite quiz_page_completion by (left; exact Hq).
    rewrite take_quiz_again_eq. cbn [snd].
    destruct (again_clicked inp); [right|left]; reflexivity.
Qed.

Section RunProperties.

Variable LogisticRegression : Type.
Variable fit : list (list Q) -> list Z -> result LogisticRegression.
Variable predict_proba :
  LogisticRegression -> list (list Q) -> result (list (list Q)).

Local Abbreviation generate :=
  (generate_next LogisticRegression fit predict_proba).
Local Abbreviation step_of := (step LogisticRegression fit predict_proba).
Local Abbreviation reachable_in :=
  (reachable LogisticRegression fit predict_proba).

(** Whatever it is given, the selector returns one of the nine. *)
Lemma select_in_combinations (model : option LogisticRegression)
    (enc : option OneHotEncoder.t) :
  exists c,
    select_adaptive_difficulty LogisticRegression predict_proba model enc
    = Ok c /\ In c combinations.
Proof.
  destruct model as [model|], enc as [enc|];
    try (exists ("World War I", "Easy"); split;
         [reflexivity | left; reflexivity]).
  destruct (select_first_weakest LogisticRegression predict_proba model enc)
    as (before & c & after & Hc & Hsel & _).
  exists c. split; [exact Hsel|]. rewrite Hc. apply in_or_app. right. now left.
Qed.

(** A run, piece by piece. *)
Lemma step_eq (inp : Inputs) (w : World) :
  step_of inp w
  = if api_key inp then
      match generate inp (bootstrapped w) with
      | (Ok _, w1) => snd (quiz_page inp w1)
      | (Raise _, w1) => w1
      end
    else bootstrapped w.
Proof.
  unfold step, run_script.
  unfold sbind at 1. unfold get_file at 1.
  unfold sbind at 1. unfold put_file at 1. fold (bootstrapped w).
  destruct (api_key inp); [|reflexivity].
  unfold sbind.
  destruct (generate inp (bootstrapped w)) as [[[]|e] w1]; reflexivity.
Qed.

(** Asking for the next question either leaves the world as it is or
    stores a question about the combination selected. *)
Lemma generate_next_cases (inp : Inputs) (s : SessionState) (fs : LogStore) :
  let w := mkWorld s fs in
  snd (generate inp w) = w \/
  (current_question s = None /\ num_questions s < MAX_QUESTIONS /\
   fst (generate inp w) = Ok tt /\
   exists c g,
     In c combinations /\
     generated inp (fst c) (snd c) = Some g /\
     snd (generate inp w)
     = mkWorld (mkSession (score s)
                  (Some (question_of g (fst c) (snd c) (num_questions s)))
                  (answered s) (num_questions s)) fs).
Proof.
  intros w. unfold w, generate_next. unfold_script.
  cbn [session_state log_file].
  destruct (current_question s) eqn:Hq; [now left|].
  destruct (Z.ltb_spec (num_questions s) MAX_QUESTIONS) as [Hn|Hn];
    [|now left].
  cbn [session_state log_file].
  destruct (train_adaptive_model _ fit fs) as [[model enc]|e]; [|now left].
  destruct (select_in_combinations model enc) as ([t d] & -> & Hc).
  destruct (generated inp t d) as [g|] eqn:Hg; [|now left].
  right. split; [reflexivity|]. split; [exact Hn|]. split; [reflexivity|].
  exists (t, d), g. split; [exact Hc|]. split; [exact Hg|].
  cbn. now destruct s.
Qed.

Lemma generate_next_noop (inp : Inputs) (w : World) :
  current_question (session_state w) <> None \/
  MAX_QUESTIONS <= num_questions (session_state w) ->
  generate inp w = (Ok tt, w).
Proof.
  intros H. unfold generate_next. unfold_script.
  destruct (current_question (session_state w)); [reflexivity|].
  destruct H as [H|H]; [now elim H|].
  apply Z.ltb_ge in H. now rewrite H.
Qed.

(** The session a page starts from: the one the run started with, or
    that one with a new question about one of the nine combinations. *)
Lemma step_cases (inp : Inputs) (w : World) :
  let s := session_state w in
  let rows := rows_of (log_file w) in
  exists s1,
    (s1 = s \/
     (current_question s = None /\ num_questions s < MAX_QUESTIONS /\
      exists c g,
        In c combinations /\ generated inp (fst c) (snd c) = Some g /\
        s1 = mkSession (score s)
               (Some (question_of g (fst c) (snd c) (num_questions s)))
               (answered s) (num_questions s))) /\
    (step_of inp w = mkWorld s1 (Some rows) \/
     step_of inp w = snd (quiz_page inp (mkWorld s1 (Some rows)))).
Proof.
  intros s rows. rewrite step_eq.
  assert (B : bootstrapped w = mkWorld s (Some rows)).
  { unfold bootstrapped, s, rows. now destruct (log_file w). }
  rewrite B.
  destruct (api_key inp); [|exists s; split; [now left|now left]].
  destruct (generate_next_cases inp s (Some rows)) as [H|H].
  - exists s. split; [now left|].
    destruct (generate inp (mkWorld s (Some rows))) as [[[]|e] w1];
      cbn [snd] in H; subst w1; [now right|now left].
  - destruct H as (Hq & Hn & Hok & c & g & Hc & Hg & Hw).
    eexists. split.
    + right. split; [exact Hq|]. split; [exact Hn|].
      exists c, g. split; [exact Hc|]. split; [exact Hg|reflexivity].
    + destruct (generate inp (mkWorld s (Some rows))) as [[[]|e] w1];
        cbn [fst snd] in Hok, Hw; [|discriminate]. subst w1. now right.
Qed.

(** *** What every run keeps *)

Lemma session_ok_question (s : SessionState) (c : string * string)
    (g : GeneratedQuestion) :
  session_ok s -> current_question s = None -> In c combinations ->
  session_ok (mkSession (score s)
                (Some (question_of g (fst c) (snd c) (num_questions s)))
                (answered s) (num_questions s)).
Proof.
  intros [Ha _] Hq Hc. split; cbn [answered current_question num_questions].
  - intros H. destruct (Ha H) as [Hne _]. now elim Hne.
  - intros q [= <-]. split; [now destruct c|reflexivity].
Qed.

Lemma quiz_page_session_ok (inp : Inputs) (s : SessionState)
    (rows : list ResponseRecord) :
  session_ok s ->
  session_ok (session_state (snd (quiz_page inp (mkWorld s (Some rows))))).
Proof.
  intros Hs.
  assert (Hi : session_ok initial_session).
  { split; cbn; [discriminate|]. intros q H. discriminate H. }
  assert (Hadv : forall s0, session_ok (advanced s0)).
  { intros s0. split; cbn; [discriminate|]. intros q H. discriminate H. }
  destruct (quiz_page_cases inp s rows)
    as [[_ [->| ->]] | (q & Hq & Hn & [->|[[_ ->]|[[_ ->]|[_ ->]]]])];
    cbn [session_state]; try assumption; try apply Hadv.
  unfold graded. cbn [session_state]. destruct Hs as [_ Hs].
  split; cbn [answered current_question num_questions].
  - intros _. split; [now rewrite Hq|exact Hn].
  - exact Hs.
Qed.

Lemma step_session_ok (inp : Inputs) (w : World) :
  session_ok (session_state w) -> session_ok (session_state (step_of inp w)).
Proof.
  intros Hs. destruct (step_cases inp w) as (s1 & H1 & Hw).
  assert (Hs1 : session_ok s1).
  { destruct H1 as [->|(Hq & _ & c & g & Hc & _ & ->)]; [exact Hs|].
    now apply session_ok_question. }
  destruct Hw as [-> | ->]; [exact Hs1|].
  now apply quiz_page_session_ok.
Qed.

Lemma reachable_session_ok (w : World) :
  reachable_in w -> session_ok (session_state w).
Proof.
  induction 1 as [fs|inp w _ IH].
  - split; cbn; [discriminate|]. intros q H. discriminate H.
  - now apply step_session_ok.
Qed.

Lemma row_of_ok (r : RadioOption) (q_data : Question) (n : Z) :
  question_ok n q_data ->
  row_ok n (row_of (Z.of_nat (radio_index r) + 1) q_data).
Proof.
  intros [Hc Hid]. unfold row_ok, row_of, verdict.
  cbn [topic difficulty answered_correct choice question_id].
  split; [exact Hc|]. split.
  - destruct (_ =? _); auto.
  - split; [apply radio_in_range|exact Hid].
Qed.

Lemma quiz_page_effect (inp : Inputs) (s : SessionState)
    (rows : list ResponseRecord) :
  let w' := snd (quiz_page inp (mkWorld s (Some rows))) in
  exists added,
    log_file w' = Some (rows ++ added) /\
    (List.length added <= 1)%nat /\
    ((forall q, current_question s = Some q ->
                question_ok (num_questions s) q) ->
     Forall (row_ok (num_questions s)) added) /\
    counters_move s (session_state w') added.
Proof.
  intros w'. unfold counters_move.
  assert (Same : forall s', w' = mkWorld s' (Some rows) ->
            (s' = initial_session \/
             score s' = score s /\
             (num_questions s' = num_questions s \/
              num_questions s' = num_questions s + 1 /\
              answered s' = false /\ current_question s' = None)) ->
            exists added,
              log_file w' = Some (rows ++ added) /\
              (List.length added <= 1)%nat /\
              ((forall q, current_question s = Some q ->
                          question_ok (num_questions s) q) ->
               Forall (row_ok (num_questions s)) added) /\
              ((session_state w' = initial_session /\ added = []) \/
               (score (session_state w') = score s + sum_outcomes added /\
                (num_questions (session_state w') = num_questions s \/
                 (num_questions (session_state w') = num_questions s + 1 /\
                  answered (session_state w') = false /\
                  current_question (session_state w') = None))))).
  { intros s' -> H. exists []. rewrite app_nil_r. cbn [log_file session_state].
    split; [reflexivity|]. split; [simpl; lia|]. split; [constructor|].
    destruct H as [->|[Hsc Hn]]; [now left|right].
    unfold sum_outcomes. cbn. split; [lia|exact Hn]. }
  destruct (quiz_page_cases inp s rows)
    as [[_ [H|H]] | (q & Hq & Hn & [H|[[_ H]|[[_ H]|[_ H]]]])];
    fold w' in H.
  - apply (Same s H). right. split; [reflexivity|now left].
  - apply (Same initial_session H). now left.
  - apply (Same s H). right. split; [reflexivity|now left].
  - apply (Same (advanced s) H). right. split; [reflexivity|].
    right. cbn. auto.
  - rewrite H. unfold graded. cbn [log_file session_state].
    eexists [_]. split; [reflexivity|]. split; [simpl; lia|]. split.
    + intros Hok. constructor; [|constructor].
      apply (row_of_ok (radio inp) q). now apply Hok.
    + right. unfold sum_outcomes.
      cbn [map fold_right answered_correct score num_questions].
      split; [lia|now left].
  - rewrite H. unfold graded, advanced. cbn [log_file session_state].
    eexists [_]. split; [reflexivity|]. split; [simpl; lia|]. split.
    + intros Hok. constructor; [|constructor].
      apply (row_of_ok (radio inp) q). now apply Hok.
    + right. unfold sum_outcomes.
      cbn [map fold_right answered_correct score num_questions answered
           current_question].
      split; [lia|]. right. auto.
Qed.

Lemma step_effect (inp : Inputs) (w : World) :
  let s := session_state w in
  exists added,
    log_file (step_of inp w) = Some (rows_of (log_file w) ++ added) /\
    (List.length added <= 1)%nat /\
    (session_ok s -> Forall (row_ok (num_questions s)) added) /\
    counters_move s (session_state (step_of inp w)) added.
Proof.
  intros s. destruct (step_cases inp w) as (s1 & H1 & Hw). fold s in H1.
  assert (E : score s1 = score s /\ num_questions s1 = num_questions s).
  { destruct H1 as [->|(_ & _ & c & g & _ & _ & ->)]; now cbn. }
  destruct E as [Esc En].
  assert (Hq : session_ok s ->
               forall q, current_question s1 = Some q ->
                         question_ok (num_questions s1) q).
  { intros Hs.
    destruct H1 as [->|(Hq & _ & c & g & Hc & _ & ->)]; [apply Hs|].
    apply (session_ok_question s c g Hs Hq Hc). }
  destruct Hw as [-> | ->].
  - exists []. rewrite app_nil_r. cbn [log_file session_state].
    split; [reflexivity|]. split; [simpl; lia|]. split; [constructor|].
    right. unfold sum_outcomes. cbn. split; [lia|left; exact En].
  - destruct (quiz_page_effect inp s1 (rows_of (log_file w)))
      as (added & Hf & Hl & Hrows & Hmove).
    exists added. split; [exact Hf|]. split; [exact Hl|]. split.
    + intros Hs. rewrite <- En. apply Hrows. now apply Hq.
    + unfold counters_move in *. rewrite <- Esc, <- En. exact Hmove.
Qed.

(** X1. In every world a session can reach, [answered] is true only
    while a question is on display and fewer than [MAX_QUESTIONS]
    questions are counted. *)
Theorem answered_only_with_question (w : World) :
  reachable_in w ->
  answered (session_state w) = true ->
  (exists q_data, current_question (session_state w) = Some q_data) /\
  num_questions (session_state w) < MAX_QUESTIONS.
Proof.
  intros R Ha. destruct (reachable_session_ok w R) as [H _].
  destruct (H Ha) as [Hq Hn]. split; [|exact Hn].
  destruct (current_question (session_state w)) as [q|]; [now exists q|].
  now elim Hq.
Qed.

(** X2. In every world a session can reach, the question on display
    is about one of the nine (topic, difficulty) combinations and its
    id is [topic_difficulty_n] for the current number [n] of questions
    counted. *)
Theorem current_question_is_keyed (w : World) (q_data : Question) :
  reachable_in w ->
  current_question (session_state w) = Some q_data ->
  In (q_topic q_data) topics /\ In (q_difficulty q_data) difficulties /\
  q_question_id q_data
  = question_key (q_topic q_data) (q_difficulty q_data)
                 (num_questions (session_state w)).
Proof.
  intros R Hq. destruct (reachable_session_ok w R) as [_ H].
  destruct (H q_data Hq) as [Hc Hid].
  apply in_combinations in Hc as [Ht Hd]. auto.
Qed.

(** X3. A run from a reachable world adds at most one row to the log,
    and the row it adds is about one of the nine combinations, has
    outcome 0 or 1, a choice in 1-4 and the id of the question that
    was on display. *)
Theorem added_row_is_well_formed (inp : Inputs) (w : World) :
  reachable_in w ->
  exists added,
    log_file (step_of inp w) = Some (rows_of (log_file w) ++ added) /\
    (List.length added <= 1)%nat /\
    Forall (row_ok (num_questions (session_state w))) added.
Proof.
  intros R. destruct (step_effect inp w) as (added & Hf & Hl & Hrows & _).
  exists added. split; [exact Hf|]. split; [exact Hl|].
  apply Hrows. now apply reachable_session_ok.
Qed.

Lemma bootstrapped_eq (w : World) :
  bootstrapped w = mkWorld (session_state w) (Some (rows_of (log_file w))).
Proof. unfold bootstrapped. now destruct (log_file w). Qed.

(** X5. Once [MAX_QUESTIONS] questions are counted the quiz is over:
    a run asks for no question, grades nothing and adds no row; the
    session stays as it is unless Take Quiz Again is clicked, which
    resets it to the initial values and keeps the log. *)
Theorem complete_quiz_only_resets (inp : Inputs) (w : World) :
  MAX_QUESTIONS <= num_questions (session_state w) ->
  step_of inp w
  = mkWorld (if api_key inp && again_clicked inp then initial_session
             else session_state w)
            (Some (rows_of (log_file w))).
Proof.
  intros H. rewrite step_eq, bootstrapped_eq.
  destruct (api_key inp); [|reflexivity].
  rewrite generate_next_noop by (right; exact H).
  rewrite quiz_page_completion by (right; exact H).
  rewrite take_quiz_again_eq. now destruct (again_clicked inp).
Qed.

(** X6. When no question is on display and the generator returns
    nothing, a run without a click on Take Quiz Again leaves the
    session as it was and adds no row, whatever training and
    selection did. *)
Theorem failed_generation_keeps_session (inp : Inputs) (w : World) :
  current_question (session_state w) = None ->
  (forall t d, generated inp t d = None) ->
  again_clicked inp = false ->
  step_of inp w = mkWorld (session_state w) (Some (rows_of (log_file w))).
Proof.
  intros Hq Hg Hc. rewrite step_eq, bootstrapped_eq.
  destruct (api_key inp); [|reflexivity].
  set (w0 := mkWorld (session_state w) (Some (rows_of (log_file w)))).
  destruct (generate_next_cases inp (session_state w)
              (Some (rows_of (log_file w)))) as [H|H]; fold w0 in H.
  - destruct (generate inp w0) as [[[]|e] w1]; cbn [snd] in H; subst w1;
      [|reflexivity].
    rewrite quiz_page_completion by (left; exact Hq).
    rewrite take_quiz_again_eq, Hc. reflexivity.
  - destruct H as (_ & _ & _ & c & g & _ & Hsome & _).
    rewrite Hg in Hsome. discriminate.
Qed.

(** X7. A question whose [correct_answer] indexes no option (below -3
    or above 4) can never be left: no option of the radio equals it,
    every submission raises at line 406 before anything is written,
    and the next-question button is never drawn. Whatever the inputs
    of the following runs, the session and the log stay as they are. *)
Theorem unindexable_question_blocks_session (inps : list Inputs) (w : World)
    (q_data : Question) :
  current_question (session_state w) = Some q_data ->
  answered (session_state w) = false ->
  num_questions (session_state w) < MAX_QUESTIONS ->
  indexable (correct_answer q_data) = false ->
  session_state (run_all LogisticRegression fit predict_proba inps w)
  = session_state w /\
  rows_of (log_file (run_all LogisticRegression fit predict_proba inps w))
  = rows_of (log_file w).
Proof.
  intros Hq Ha Hn Hi.
  assert (One : forall inp w0,
            session_state w0 = session_state w ->
            step_of inp w0
            = mkWorld (session_state w0) (Some (rows_of (log_file w0)))).
  { intros inp w0 Hs. rewrite step_eq, bootstrapped_eq.
    destruct (api_key inp); [|reflexivity].
    rewrite generate_next_noop
      by (left; cbn [session_state]; rewrite Hs, Hq; discriminate).
    rewrite (quiz_page_question inp _ q_data)
      by (cbn [session_state]; rewrite Hs; assumption).
    unfold sbind. rewrite submit_answer_radio. rewrite Hs, Ha, Hi.
    assert (Hne : (Z.of_nat (radio_index (radio inp)) + 1
                   =? correct_answer q_data) = false).
    { apply Z.eqb_neq. pose proof (radio_in_range (radio inp)).
      unfold indexable in Hi. apply andb_false_iff in Hi as [Hi|Hi]; lia. }
    rewrite Hne. cbn [orb negb].
    destruct (submit_clicked inp); cbn [andb]; [reflexivity|].
    rewrite next_question_button_eq, Ha. reflexivity. }
  unfold run_all.
  assert (G : forall w0, session_state w0 = session_state w ->
            session_state (fold_left (fun w1 inp => step_of inp w1) inps w0)
            = session_state w /\
            rows_of (log_file (fold_left (fun w1 inp => step_of inp w1)
                                         inps w0))
            = rows_of (log_file w0)).
  { induction inps as [|inp inps IH]; intros w0 Hs; cbn [fold_left].
    - now split.
    - destruct (IH (step_of inp w0)) as [E1 E2].
      + rewrite One by exact Hs. exact Hs.
      + split; [exact E1|]. rewrite E2, One by exact Hs. reflexivity. }
  now apply G.
Qed.

End RunProperties.

(** ** Errors while submitting *)

(** X8. When the log cannot be read while an answer is submitted, the
    handler ends by the exception after the score was changed: a
    correct answer keeps its point although no row was written and
    [answered] is still false, so the same question can be graded
    again. *)
Theorem submit_without_log_keeps_point (choice : string) (selected : Z)
    (q_data : Question) (s : SessionState) :
  int (split_head "." choice) = Ok selected ->
  answered s = false ->
  selected = correct_answer q_data ->
  submit_answer true choice q_data (mkWorld s None)
  = (Raise FileNotFoundError,
     mkWorld (mkSession (score s + 1) (current_question s) false
                        (num_questions s)) None).
Proof.
  intros Hi Ha Hc. unfold_script. cbn [session_state log_file].
  rewrite Ha, Hi. cbn [andb negb].
  rewrite Hc, Z.eqb_refl. cbn. now rewrite Ha.
Qed.

(** ** The log and the model *)

Lemma len_app {A} (l l' : list A) : len (l ++ l') = len l + len l'.
Proof. unfold len. rewrite length_app. lia. Qed.

(** The guard of line 162 never closes again on a log that grows. *)
Lemma insufficient_app (log_data added : list ResponseRecord) :
  insufficient log_data = false ->
  insufficient (log_data ++ added) = false.
Proof.
  unfold insufficient. intros H.
  apply orb_false_iff in H as [Hl Hu].
  apply Z.ltb_ge in Hl. apply Z.ltb_ge in Hu.
  apply orb_false_iff. split; apply Z.ltb_ge.
  - rewrite len_app. unfold len at 2. lia.
  - destruct (nunique_two_inv _ Hu) as (a & b & Hab & Ia & Ib).
    rewrite map_app. apply (nunique_two _ a b Hab);
      apply in_or_app; now left.
Qed.

Section ModelProperties.

Variable LogisticRegression : Type.
Variable fit : list (list Q) -> list Z -> result LogisticRegression.
Variable predict_proba :
  LogisticRegression -> list (list Q) -> result (list (list Q)).

Local Abbreviation train := (train_adaptive_model LogisticRegression fit).
Local Abbreviation select :=
  (select_adaptive_difficulty LogisticRegression predict_proba).
Local Abbreviation predicted_of :=
  (predicted LogisticRegression predict_proba).
Local Abbreviation generate :=
  (generate_next LogisticRegression fit predict_proba).
Local Abbreviation step_of := (step LogisticRegression fit predict_proba).

(** X9. Once the log suffices for training it suffices after every
    later run: runs only append rows, and the guard of line 162 stays
    open on a log that grows, so training never falls back to the
    null model again. *)
Theorem sufficient_log_stays_sufficient (inp : Inputs) (w : World) :
  insufficient (rows_of (log_file w)) = false ->
  insufficient (rows_of (log_file (step_of inp w))) = false /\
  train (log_file (step_of inp w)) <> Ok (None, None).
Proof.
  intros H.
  destruct (run_script_file LogisticRegression fit predict_proba inp w)
    as (added & Hf & _).
  rewrite Hf. cbn [rows_of].
  pose proof (insufficient_app _ added H) as H'.
  split; [exact H'|].
  rewrite train_unfold, H'.
  destruct (fit _ _); cbn; discriminate.
Qed.

Lemma equal_predictions_first (model : LogisticRegression)
    (enc : OneHotEncoder.t) :
  (forall c, In c combinations ->
     (predicted_of model enc c
      == predicted_of model enc ("World War I", "Easy"))%Q) ->
  select (Some model) (Some enc) = Ok ("World War I", "Easy").
Proof.
  intros Heq.
  destruct (select_first_weakest LogisticRegression predict_proba model enc)
    as (before & c & after & Hc & Hsel & Hlt & _).
  destruct before as [|c0 before].
  - cbn in Hc. rewrite Hsel. now inversion Hc.
  - exfalso.
    assert (Hin : forall c', In c' (c0 :: before ++ c :: after) ->
                             In c' combinations) by (now rewrite Hc).
    assert (H0 : (predicted_of model enc c < predicted_of model enc c0)%Q)
      by (apply Hlt; now left).
    rewrite (Heq c), (Heq c0) in H0.
    + exact (Qlt_irrefl _ H0).
    + apply Hin. now left.
    + apply Hin. right. apply in_or_app. right. now left.
Qed.

(** X10. When the nine predicted probabilities are all equal, the
    selector returns the first combination, (World War I, Easy). In
    particular it does so when every prediction raises, each
    probability being 0.5 then. *)
Theorem equal_predictions_select_first (model : LogisticRegression)
    (enc : OneHotEncoder.t) :
  ((forall c, In c combinations ->
      (predicted_of model enc c
       == predicted_of model enc ("World War I", "Easy"))%Q) ->
   select (Some model) (Some enc) = Ok ("World War I", "Easy")) /\
  ((forall t d, exists e,
      predict_correct LogisticRegression predict_proba model enc t d
      = Raise e) ->
   select (Some model) (Some enc) = Ok ("World War I", "Easy")).
Proof.
  split; [apply equal_predictions_first|].
  intros H. apply equal_predictions_first. intros [t d] _.
  unfold predicted. cbn [fst snd].
  destruct (H t d) as (e & ->).
  destruct (H "World War I" "Easy") as (e' & ->). reflexivity.
Qed.

(** X11. With no question on display, fewer than [MAX_QUESTIONS]
    counted and an insufficient log, the question asked for is always
    about (World War I, Easy), whatever the model type: when the
    generator returns one it is stored with that topic, that
    difficulty and the id [World War I_Easy_n]; when it returns
    nothing the world is unchanged. *)
Theorem insufficient_log_asks_default (inp : Inputs) (s : SessionState)
    (rows : list ResponseRecord) :
  current_question s = None ->
  num_questions s < MAX_QUESTIONS ->
  insufficient rows = true ->
  generate inp (mkWorld s (Some rows))
  = (Ok tt,
     match generated inp "World War I" "Easy" with
     | Some g =>
         mkWorld (mkSession (score s)
                    (Some (question_of g "World War I" "Easy"
                                       (num_questions s)))
                    (answered s) (num_questions s))
                 (Some rows)
     | None => mkWorld s (Some rows)
     end).
Proof.
  intros Hq Hn Hi. apply Z.ltb_lt in Hn.
  unfold generate_next. unfold_script. cbn [session_state log_file].
  rewrite Hq, Hn. cbn [session_state log_file].
  rewrite train_unfold, Hi.
  cbn [select_adaptive_difficulty].
  destruct (generated inp "World War I" "Easy"); reflexivity.
Qed.

End ModelProperties.

(* ================================================================== *)
(** * Properties of the collaborators' replies *)
(* ================================================================== *)

(** X12. [fetch_youtube_video] never raises, and it returns a link
    only when the search result is a dict whose entry [result] is
    itself a non-empty dict with an entry [link]. When [result] holds
    a list of videos, the string index of line 152 raises inside the
    [try] and the function returns None. *)
Theorem fetch_youtube_video_needs_dict (search : string -> result value)
    (query : string) :
  (forall entries items,
     search query = Ok (VDict entries) ->
     get entries "result" = Some (VList items) ->
     fetch_youtube_video search query = VNone) /\
  (fetch_youtube_video search query <> VNone ->
   exists entries inner,
     search query = Ok (VDict entries) /\
     get entries "result" = Some (VDict inner) /\
     get inner "link" = Some (fetch_youtube_video search query)).
Proof.
  unfold fetch_youtube_video. split.
  - intros entries items -> H. cbn. rewrite H. cbn.
    now destruct items.
  - destruct (search query) as [[| | | | |entries]|e]; cbn;
      try (intros H; now elim H).
    destruct (get entries "result") as [found|] eqn:Hf; cbn;
      [|intros H; now elim H].
    destruct (truthy found) eqn:Ht; cbn; [|intros H; now elim H].
    destruct found as [| | | | |inner]; cbn; try (intros H; now elim H).
    destruct (get inner "link") as [v|] eqn:Hl; cbn;
      [|intros H; now elim H].
    intros _. now exists entries, inner.
Qed.

Section RepliesProperties.

Variable strip : string -> string.

Lemma reply_queries_bound (content : string) (n : nat) :
  (List.length (reply_queries strip content n) <= n)%nat /\
  Forall (fun q => nonempty q = true) (reply_queries strip content n).
Proof.
  unfold reply_queries. split.
  - apply firstn_le_length.
  - apply Forall_forall. intros q Hq.
    apply (In_nth_error) in Hq as (i & Hi).
    assert (Hin : In q (map strip
                     (filter (fun q0 => nonempty (strip q0))
                             (split newline (strip content))))).
    { apply nth_error_In with (n := i).
      rewrite nth_error_firstn in Hi.
      destruct (Nat.ltb i n); [exact Hi|discriminate]. }
    apply in_map_iff in Hin as (q0 & <- & H0).
    apply filter_In in H0. apply H0.
Qed.

(** X13. Whatever the collaborator replies or raises,
    [get_educational_youtube_recommendation] returns at most 3
    queries and none of them is empty; when the call raises it returns
    the three fixed queries, the first built from the topic. *)
Theorem educational_queries_are_usable
    (client : string -> string -> string -> result string)
    (topic difficulty : string) (user_performance : Q) :
  let queries :=
    get_educational_youtube_recommendation strip client topic difficulty
                                           user_performance in
  (List.length queries <= 3)%nat /\
  Forall (fun q => nonempty q = true) queries /\
  ((forall context, exists e, client context difficulty topic = Raise e) ->
   queries = [(topic ++ " for kids")%string;
              "World Wars simple explanation";
              "History for middle school"]).
Proof.
  intros queries. unfold queries, get_educational_youtube_recommendation.
  set (context := if Qltb user_performance (1 # 2)
                  then "having some difficulty" else "doing well").
  cbn zeta.
  destruct (client context difficulty topic) as [content|e] eqn:E; cbn.
  - destruct (reply_queries_bound content 3) as [Hl Hf].
    split; [exact Hl|]. split; [exact Hf|].
    intros H. destruct (H context) as (e & He). congruence.
  - split; [lia|]. split; [|reflexivity].
    repeat constructor. now destruct topic.
Qed.

(** X14. Whatever the collaborator replies or raises,
    [get_final_recommendations] returns at most 5 queries and none of
    them is empty; with a total of 0 questions the division of line
    207 raises inside the [try] and the five fixed queries are
    returned. *)
Theorem final_queries_are_usable
    (client : Z -> Z -> Q -> string -> string -> result string)
    (final_score total_questions : Z) :
  let queries :=
    get_final_recommendations strip client final_score total_questions in
  (List.length queries <= 5)%nat /\
  Forall (fun q => nonempty q = true) queries /\
  (total_questions = 0 ->
   queries = ["World War 1 for kids"; "World War 2 simple explanation";
              "History of World Wars animated";
              "Famous World War leaders for students";
              "World Wars timeline for middle school"]).
Proof.
  intros queries. unfold queries, get_final_recommendations.
  destruct (total_questions =? 0) eqn:E; cbn.
  - split; [lia|]. split; [repeat constructor|reflexivity].
  - apply Z.eqb_neq in E.
    match goal with
    | |- context [try_except ?c _] => destruct c as [qs|e] eqn:Hc
    end; cbn.
    + assert (exists content, qs = reply_queries strip content 5)
        as (content & ->).
      { repeat match type of Hc with
               | context [if ?b then _ else _] => destruct b
               end;
          match type of Hc with
          | context [client ?a ?b ?c ?d ?e] =>
              destruct (client a b c d e) as [content|] eqn:?;
                cbn in Hc; [|discriminate]
          end; inversion Hc; now exists content. }
      destruct (reply_queries_bound content 5) as [Hl Hf].
      split; [exact Hl|]. split; [exact Hf|]. intros H. contradiction.
    + split; [lia|]. split; [repeat constructor|]. intros H. contradiction.
Qed.

End RepliesProperties.

(** ** Code fences *)

Lemma replace_fence_found (t : string) :
  replace fence "" (String "`" (String "`" (String "`" t)))
  = replace fence "" t.
Proof. reflexivity. Qed.

Lemma replace_fence_other (c : ascii) (s : string) :
  startswith fence (String c s) = false ->
  replace fence "" (String c s) = String c (replace fence "" s).
Proof.
  intros H. unfold replace. cbn [replace_from]. now rewrite H.
Qed.

Lemma starts_tick_fence (s : string) :
  starts_tick s = false -> startswith fence s = false.
Proof.
  destruct s as [|c s]; [reflexivity|]. unfold starts_tick, fence. cbn.
  destruct (Ascii.eqb c "`"); [discriminate|reflexivity].
Qed.

Lemma replace_fence_no_tick (s : string) :
  starts_tick s = false -> starts_tick (replace fence "" s) = false.
Proof.
  intros H. destruct s as [|c s]; [reflexivity|].
  rewrite replace_fence_other by now apply starts_tick_fence.
  exact H.
Qed.

Lemma startswith_fence_inv (s : string) :
  startswith fence s = true ->
  exists t, s = String "`" (String "`" (String "`" t)).
Proof.
  unfold fence. destruct s as [|a [|b [|c t]]]; cbn; try discriminate.
  - now rewrite andb_false_r.
  - now rewrite !andb_false_r.
  - intros H. rewrite andb_true_r in H.
    apply andb_true_iff in H as [Ha H]. apply andb_true_iff in H as [Hb Hc].
    apply Ascii.eqb_eq in Ha, Hb, Hc. subst. now exists t.
Qed.

(** Removing the fences leaves none, whatever the text. *)
Lemma replace_fence_clean (s : string) :
  occurs fence (replace fence "" s) = false.
Proof.
  remember (String.length s) as n eqn:Hn.
  revert s Hn. induction n as [n IH] using lt_wf_ind. intros s Hn.
  destruct s as [|c s]; [reflexivity|].
  destruct (startswith fence (String c s)) eqn:Hf.
  - apply startswith_fence_inv in Hf as (t & E). rewrite E.
    rewrite replace_fence_found.
    apply (IH (String.length t)); [|reflexivity].
    subst n. rewrite E. cbn. lia.
  - rewrite replace_fence_other by exact Hf.
    cbn [occurs].
    rewrite (IH (String.length s)) by (subst n; cbn; lia || reflexivity).
    rewrite orb_false_r.
    unfold fence in *. cbn [startswith] in *.
    destruct (Ascii.eqb_spec c "`") as [->|Hc]; [|reflexivity].
    cbn [andb] in *.
    destruct s as [|d s]; [reflexivity|].
    cbn [startswith] in Hf.
    destruct (Ascii.eqb_spec d "`") as [->|Hd].
    + cbn [andb] in Hf.
      assert (Ht : starts_tick s = false).
      { unfold starts_tick. destruct s as [|e s]; [reflexivity|].
        cbn [startswith] in *. now rewrite andb_true_r in *. }
      rewrite replace_fence_other
        by (unfold fence; cbn [startswith]; rewrite Ascii.eqb_refl;
            cbn [andb];
            destruct s as [|e s]; [reflexivity|];
            unfold starts_tick in Ht; cbn [startswith] in Ht |- *;
            rewrite andb_true_r in Ht; now rewrite Ht).
      cbn [startswith]. rewrite Ascii.eqb_refl. cbn [andb].
      apply (replace_fence_no_tick s) in Ht. unfold starts_tick in Ht.
      destruct (replace fence "" s) as [|e o]; [reflexivity|].
      cbn [startswith] in *. now rewrite andb_true_r in *.
    + rewrite replace_fence_other.
      * cbn [startswith]. destruct (Ascii.eqb_spec d "`"); [contradiction|].
        reflexivity.
      * unfold fence. cbn [startswith].
        destruct (Ascii.eqb_spec d "`"); [contradiction|reflexivity].
Qed.

(** X17. When the stripped reply of the question generator begins
    with a code fence, the text handed to [json.loads] contains no
    fence at all; otherwise it is the stripped reply unchanged. *)
Theorem clean_reply_has_no_fence (strip : string -> string)
    (content : string) :
  (startswith fence (strip content) = true ->
   occurs fence (clean_reply strip content) = false) /\
  (startswith fence (strip content) = false ->
   clean_reply strip content = strip content).
Proof.
  unfold clean_reply. split; intros H; rewrite H; [|reflexivity].
  apply replace_fence_clean.
Qed.

(* ================================================================== *)
(** * Properties of what the pages show *)
(* ================================================================== *)

Lemma sum_outcomes_range (col : list Z) :
  Forall (fun v => v = 0 \/ v = 1) col ->
  0 <= fold_right Z.add 0 col <= len col.
Proof.
  unfold len. induction 1 as [|v col Hv _ IH]; cbn [fold_right List.length].
  - simpl. lia.
  - destruct Hv; subst; lia.
Qed.

Lemma mean_range (col : list Z) :
  col <> [] ->
  exists p, mean col = Some p /\
            (Forall (fun v => v = 0 \/ v = 1) col -> (0 <= p <= 1)%Q).
Proof.
  intros Hne. destruct col as [|v col]; [congruence|].
  eexists. split; [reflexivity|]. intros H.
  apply sum_outcomes_range in H.
  set (total := fold_right Z.add 0 (v :: col)) in *.
  assert (Hl : 0 < len (v :: col)) by (unfold len; simpl; lia).
  destruct (len (v :: col)) as [|n|n]; try lia.
  unfold Qle, Qdiv, Qmult, Qinv. cbn. unfold total in H. cbn in H. lia.
Qed.

(** X18. After a submission was logged, the topic performance of
    lines 421-425 is the mean over a selection that contains the row
    just written: it is a number, never the NaN of an empty
    selection, and lies between 0 and 1 when the outcomes logged
    before are 0 or 1. *)
Theorem topic_performance_after_submit (rows : list ResponseRecord)
    (selected : Z) (q_data : Question) :
  let log_data := rows ++ [row_of selected q_data] in
  In (row_of selected q_data) (filter (same_combination q_data) log_data) /\
  exists p,
    topic_performance log_data q_data = Some p /\
    (Forall outcome_ok rows -> (0 <= p <= 1)%Q).
Proof.
  intros log_data.
  assert (Hsel : filter (same_combination q_data) log_data
                 = filter (same_combination q_data) rows
                   ++ [row_of selected q_data]).
  { unfold log_data. rewrite filter_app. cbn [filter].
    unfold same_combination at 2, row_of. cbn [topic difficulty].
    now rewrite !String.eqb_refl. }
  split.
  - rewrite Hsel. apply in_or_app. right. now left.
  - assert (Htp : topic_performance log_data q_data
                  = mean (map answered_correct
                            (filter (same_combination q_data) log_data))).
    { unfold topic_performance, log_data. now destruct rows. }
    rewrite Htp, Hsel.
    destruct (mean_range
                (map answered_correct
                   (filter (same_combination q_data) rows
                    ++ [row_of selected q_data]))) as (p & Hp & Hr).
    { rewrite map_app. intros H. apply app_eq_nil in H as [_ H].
      discriminate H. }
    exists p. split; [exact Hp|]. intros Hrows. apply Hr.
    rewrite map_app. apply Forall_app. split.
    + apply Forall_forall. intros v Hv.
      apply in_map_iff in Hv as (r & <- & Hin).
      apply filter_In in Hin as [Hin _].
      rewrite Forall_forall in Hrows. now apply Hrows.
    + constructor; [|constructor]. unfold row_of, verdict.
      cbn [answered_correct]. destruct (_ =? _); [now right|now left].
Qed.

(* ================================================================== *)
(** * Further examples *)
(* ================================================================== *)

Lemma shown_reachable :
  reachable Example.LinearModel Example.fit Example.predict_proba
            Scenario.shown.
Proof. apply reachable_step, reachable_init. Defined.

Lemma answered_once_reachable :
  reachable Example.LinearModel Example.fit Example.predict_proba
            Scenario.answered_once.
Proof. apply reachable_step, shown_reachable. Defined.

(** After a second correct answer the sidebar shows 200 percent. *)
Example sidebar_accuracy_200 :
  sidebar (session_state
             (Scenario.run Example.submit_third
                (Scenario.run Example.no_click
                   (Scenario.run Example.click_next Scenario.answered_once))))
  = Some (inject_Z 2 / inject_Z 1 * 100, inject_Z 1 / inject_Z 6)%Q.
Proof. reflexivity. Qed.

Lemma answered_only_with_question_witness :
  answered (session_state Scenario.answered_once) = true /\
  ((exists q_data,
      current_question (session_state Scenario.answered_once)
      = Some q_data) /\
   num_questions (session_state Scenario.answered_once) < MAX_QUESTIONS).
Proof.
  split; [reflexivity|].
  apply (answered_only_with_question Example.LinearModel Example.fit
           Example.predict_proba Scenario.answered_once
           answered_once_reachable).
  reflexivity.
Defined.

Lemma current_question_is_keyed_witness :
  current_question (session_state Scenario.shown) = Some Example.q_data3 /\
  (In "World War I" topics /\ In "Easy" difficulties /\
   "World War I_Easy_0" = question_key "World War I" "Easy" 0).
Proof.
  split; [reflexivity|].
  apply (current_question_is_keyed Example.LinearModel Example.fit
           Example.predict_proba Scenario.shown Example.q_data3
           shown_reachable).
  reflexivity.
Defined.

Lemma added_row_is_well_formed_witness :
  exists added,
    log_file (Scenario.run Example.submit_third Scenario.shown)
    = Some (rows_of (log_file Scenario.shown) ++ added) /\
    (List.length added <= 1)%nat /\
    Forall (row_ok (num_questions (session_state Scenario.shown))) added.
Proof.
  apply (added_row_is_well_formed Example.LinearModel Example.fit
           Example.predict_proba Example.submit_third Scenario.shown
           shown_reachable).
Defined.

Lemma complete_quiz_only_resets_witness :
  MAX_QUESTIONS <= num_questions (session_state Scenario.finished) /\
  Scenario.run Scenario.click_again Scenario.finished
  = mkWorld initial_session (Some Example.log3).
Proof.
  split; [discriminate|].
  apply (complete_quiz_only_resets Example.LinearModel Example.fit
           Example.predict_proba Scenario.click_again Scenario.finished).
  discriminate.
Defined.

Lemma failed_generation_keeps_session_witness :
  (current_question (session_state Scenario.start) = None /\
   (forall t d, generated Scenario.silent t d = None) /\
   again_clicked Scenario.silent = false) /\
  Scenario.run Scenario.silent Scenario.start
  = mkWorld initial_session (Some []).
Proof.
  split; [repeat split|].
  apply (failed_generation_keeps_session Example.LinearModel Example.fit
           Example.predict_proba Scenario.silent Scenario.start);
    reflexivity.
Defined.

Lemma unindexable_question_blocks_session_witness :
  (current_question (session_state Scenario.stuck)
   = Some Scenario.broken_question /\
   answered (session_state Scenario.stuck) = false /\
   num_questions (session_state Scenario.stuck) < MAX_QUESTIONS /\
   indexable (correct_answer Scenario.broken_question) = false) /\
  session_state
    (run_all Example.LinearModel Example.fit Example.predict_proba
             [Example.submit_third; Example.click_next; Example.no_click]
             Scenario.stuck)
  = session_state Scenario.stuck.
Proof.
  split; [repeat split|].
  apply (unindexable_question_blocks_session Example.LinearModel Example.fit
           Example.predict_proba
           [Example.submit_third; Example.click_next; Example.no_click]
           Scenario.stuck Scenario.broken_question); reflexivity.
Defined.

Lemma submit_without_log_keeps_point_witness :
  let s := mkSession 0 (Some Example.q_data3) false 0 in
  (int (split_head "." "3. 1914") = Ok 3 /\ answered s = false /\
   3 = correct_answer Example.q_data3) /\
  submit_answer true "3. 1914" Example.q_data3 (mkWorld s None)
  = (Raise FileNotFoundError,
     mkWorld (mkSession 1 (Some Example.q_data3) false 0) None).
Proof.
  intros s. split; [repeat split|].
  apply (submit_without_log_keeps_point "3. 1914" 3 Example.q_data3 s);
    reflexivity.
Defined.

Lemma sufficient_log_stays_sufficient_witness :
  let w := mkWorld (mkSession 0 (Some Example.q_data3) false 0)
                   (Some Example.log3) in
  insufficient (rows_of (log_file w)) = false /\
  insufficient (rows_of (log_file (Scenario.run Example.submit_third w)))
  = false.
Proof.
  intros w. split; [reflexivity|].
  apply (sufficient_log_stays_sufficient Example.LinearModel Example.fit
           Example.predict_proba Example.submit_third w).
  reflexivity.
Defined.

Lemma equal_predictions_select_first_witness :
  select_adaptive_difficulty Example.LinearModel Example.predict_proba
    (Some (Example.mkLinear [] 0%Q)) (Some Example.encoder9)
  = Ok ("World War I", "Easy").
Proof.
  apply (proj1 (equal_predictions_select_first Example.LinearModel
                  Example.predict_proba (Example.mkLinear [] 0%Q)
                  Example.encoder9)).
  intros c Hc. unfold combinations in Hc. simpl in Hc.
  repeat (destruct Hc as [<-|Hc]; [reflexivity|]). destruct Hc.
Defined.

Lemma insufficient_log_asks_default_witness :
  (current_question initial_session = None /\
   num_questions initial_session < MAX_QUESTIONS /\
   insufficient [] = true) /\
  generate_next Example.LinearModel Example.fit Example.predict_proba
                Example.no_click (mkWorld initial_session (Some []))
  = (Ok tt, mkWorld (mkSession 0 (Some Example.q_data3) false 0) (Some [])).
Proof.
  split; [repeat split|].
  apply (insufficient_log_asks_default Example.LinearModel Example.fit
           Example.predict_proba Example.no_click initial_session []);
    reflexivity.
Defined.

Lemma fetch_youtube_video_needs_dict_witness :
  let search := fun _ : string =>
    Ok (VDict [("result",
                VList [VDict [("link", VStr "https://youtu.be/x")]])]) in
  fetch_youtube_video search "World War I for kids" = VNone.
Proof.
  intros search.
  apply (proj1 (fetch_youtube_video_needs_dict search "World War I for kids")
           [("result", VList [VDict [("link", VStr "https://youtu.be/x")]])]
           [VDict [("link", VStr "https://youtu.be/x")]]);
    reflexivity.
Defined.

Lemma educational_queries_are_usable_witness :
  let client := fun _ _ _ : string =>
    @Raise string (LibraryError "AttributeError") in
  get_educational_youtube_recommendation (fun s => s) client
    "World War I" "Easy" (1 # 2)%Q
  = ["World War I for kids"; "World Wars simple explanation";
     "History for middle school"].
Proof.
  intros client.
  apply (educational_queries_are_usable (fun s => s) client
           "World War I" "Easy" (1 # 2)%Q).
  intros context. now exists (LibraryError "AttributeError").
Defined.

Lemma final_queries_are_usable_witness :
  let client := fun (_ _ : Z) (_ : Q) (_ _ : string) => Ok "a query" in
  get_final_recommendations (fun s => s) client 3 0
  = ["World War 1 for kids"; "World War 2 simple explanation";
     "History of World Wars animated";
     "Famous World War leaders for students";
     "World Wars timeline for middle school"].
Proof.
  intros client.
  apply (final_queries_are_usable (fun s => s) client 3 0). reflexivity.
Defined.

Lemma clean_reply_has_no_fence_witness :
  let content := "```json{}```" in
  startswith fence content = true /\
  occurs fence (clean_reply (fun s => s) content) = false.
Proof.
  intros content. split; [reflexivity|].
  apply (proj1 (clean_reply_has_no_fence (fun s => s) content)).
  reflexivity.
Defined.

(* ================================================================== *)
(** * Runs in which the submit handler raises *)
(* ================================================================== *)

Ltac unfold_faulty :=
  unfold submit_answer_under, show_explanation, log_result_under in *;
  unfold_script.

(** Without a fault the handler is [submit_answer]. *)
Lemma submit_answer_under_no_fault (clicked : bool) (choice : string)
    (q_data : Question) (w : World) :
  submit_answer_under NoFault clicked choice q_data w
  = submit_answer clicked choice q_data w.
Proof.
  unfold_faulty.
  destruct (clicked && negb (answered (session_state w))); [|reflexivity].
  destruct (int (split_head "." choice)) as [selected|e]; [|reflexivity].
  cbn.
  destruct (selected =? correct_answer q_data); cbn; [reflexivity|].
  destruct (getitem (options q_data) (correct_answer q_data - 1));
    reflexivity.
Qed.

Lemma quiz_page_under_no_fault (inp : Inputs) (w : World) :
  quiz_page_under NoFault inp w = quiz_page inp w.
Proof.
  unfold quiz_page_under, quiz_page. unfold sbind at 1 3.
  unfold get_session at 1 2.
  destruct (current_question (session_state w)); [|reflexivity].
  destruct (num_questions (session_state w) <? MAX_QUESTIONS);
    [|reflexivity].
  unfold sbind. now rewrite submit_answer_under_no_fault.
Qed.

(** What the handler, faulty or not, can do to the session: the
    question and the count stay, the score stays or grows by one,
    [answered] stays or becomes true. *)
Lemma submit_answer_under_session (fault : Fault) (clicked : bool)
    (choice : string) (q_data : Question) (w : World) :
  let s := session_state w in
  let s' := session_state
              (snd (submit_answer_under fault clicked choice q_data w)) in
  current_question s' = current_question s /\
  num_questions s' = num_questions s /\
  score s <= score s' <= score s + 1 /\
  (answered s' = answered s \/ answered s' = true).
Proof.
  destruct w as [[sc cq an nq] fs]. cbn [session_state].
  unfold_faulty. cbn [session_state log_file answered].
  assert (Same : current_question (mkSession sc cq an nq) = cq /\
                 num_questions (mkSession sc cq an nq) = nq /\
                 sc <= score (mkSession sc cq an nq) <= sc + 1 /\
                 (answered (mkSession sc cq an nq) = an \/
                  answered (mkSession sc cq an nq) = true))
    by (cbn; repeat split; auto; lia).
  destruct (clicked && negb an); [|exact Same].
  destruct (int (split_head "." choice)) as [selected|e]; [|exact Same].
  cbn.
  destruct (selected =? correct_answer q_data); cbn.
  - destruct fault as [|e|e remains]; cbn.
    + destruct fs; cbn; repeat split; auto; lia.
    + repeat split; auto; lia.
    + repeat split; auto; lia.
  - destruct (getitem (options q_data) (correct_answer q_data - 1)); cbn;
      [|exact Same].
    destruct fault as [|e|e remains]; cbn.
    + destruct fs; cbn; repeat split; auto; lia.
    + repeat split; auto; lia.
    + repeat split; auto; lia.
Qed.

Lemma quiz_page_under_session (fault : Fault) (inp : Inputs) (w : World) :
  let s := session_state w in
  let s' := session_state (snd (quiz_page_under fault inp w)) in
  counters_step s s' /\ (base_bounds s -> base_bounds s').
Proof.
  intros s s'.
  assert (Keep : counters_step s s /\ (base_bounds s -> base_bounds s)).
  { split; [|auto]. right. split; [lia|now left]. }
  assert (Again : forall clicked,
            counters_step s
              (session_state (snd (take_quiz_again clicked w))) /\
            (base_bounds s ->
             base_bounds
               (session_state (snd (take_quiz_again clicked w))))).
  { intros clicked. rewrite take_quiz_again_eq. cbn [snd].
    destruct clicked; [|exact Keep]. cbn [session_state]. split.
    - now left.
    - intros _. unfold base_bounds, MAX_QUESTIONS. cbn.
      repeat split; try lia; try discriminate. }
  assert (E : quiz_page_under fault inp w
              = match current_question s with
                | Some q_data =>
                    if num_questions s <? MAX_QUESTIONS then
                      sbind (submit_answer_under fault (submit_clicked inp)
                               (st_radio (options_numbered q_data)
                                         (radio inp)) q_data)
                            (fun _ =>
                               next_question_button (next_clicked inp)) w
                    else take_quiz_again (again_clicked inp) w
                | None => take_quiz_again (again_clicked inp) w
                end).
  { unfold quiz_page_under. unfold sbind at 1. unfold get_session at 1.
    fold s. destruct (current_question s); [|reflexivity].
    destruct (num_questions s <? MAX_QUESTIONS); reflexivity. }
  unfold s'. rewrite E. clear E s'.
  destruct (current_question s) as [q_data|] eqn:Hq; [|apply Again].
  destruct (Z.ltb_spec (num_questions s) MAX_QUESTIONS) as [Hn|Hn];
    [|apply Again].
  unfold sbind.
  pose proof (submit_answer_under_session fault (submit_clicked inp)
                (st_radio (options_numbered q_data) (radio inp)) q_data w)
    as (Hcq & Hnq & Hsc & Han).
  fold s in Hcq, Hnq, Hsc, Han.
  destruct (submit_answer_under fault (submit_clicked inp) _ q_data w)
    as [[[]|e] w1]; cbn [snd] in *.
  - destruct w1 as [s1 fs1]. cbn [session_state] in *.
    rewrite next_question_button_eq. cbn [snd].
    destruct (answered s1 && next_clicked inp) eqn:E; cbn [session_state].
    + unfold advanced, base_bounds, counters_step.
      cbn [score num_questions answered current_question].
      split.
      * right. split; [lia|]. right. rewrite Hnq. auto.
      * intros (H0 & Hm & Ha).
        repeat split; try lia; try discriminate.
    + split.
      * right. split; [lia|]. left. exact Hnq.
      * intros (H0 & Hm & Ha). unfold base_bounds.
        split; [lia|]. split; [lia|]. intros _. lia.
  - split.
    + right. split; [lia|]. left. exact Hnq.
    + intros (H0 & Hm & Ha). unfold base_bounds.
      split; [lia|]. split; [lia|]. intros _. lia.
Qed.

Section FaultyRunProperties.

Variable LogisticRegression : Type.
Variable fit : list (list Q) -> list Z -> result LogisticRegression.
Variable predict_proba :
  LogisticRegression -> list (list Q) -> result (list (list Q)).

Local Abbreviation generate :=
  (generate_next LogisticRegression fit predict_proba).
Local Abbreviation step_of := (step LogisticRegression fit predict_proba).
Local Abbreviation step_under_of :=
  (step_under LogisticRegression fit predict_proba).
Local Abbreviation reachable_in :=
  (reachable LogisticRegression fit predict_proba).
Local Abbreviation history_in :=
  (history LogisticRegression fit predict_proba).

Lemma step_under_no_fault (inp : Inputs) (w : World) :
  step_under_of NoFault inp w = step_of inp w.
Proof.
  unfold step_under, step, run_script_under, run_script.
  unfold sbind at 1 4. unfold get_file at 1 2.
  unfold sbind at 1 3. unfold put_file at 1 2.
  destruct (api_key inp); [|reflexivity].
  unfold sbind.
  destruct (generate inp _) as [[[]|e] w1]; [|reflexivity].
  now rewrite quiz_page_under_no_fault.
Qed.

Lemma step_under_eq (fault : Fault) (inp : Inputs) (w : World) :
  step_under_of fault inp w
  = if api_key inp then
      match generate inp (bootstrapped w) with
      | (Ok _, w1) => snd (quiz_page_under fault inp w1)
      | (Raise _, w1) => w1
      end
    else bootstrapped w.
Proof.
  unfold step_under, run_script_under.
  unfold sbind at 1. unfold get_file at 1.
  unfold sbind at 1. unfold put_file at 1. fold (bootstrapped w).
  destruct (api_key inp); [|reflexivity].
  unfold sbind.
  destruct (generate inp (bootstrapped w)) as [[[]|e] w1]; reflexivity.
Qed.

Lemma step_under_session (fault : Fault) (inp : Inputs) (w : World) :
  counters_step (session_state w)
                (session_state (step_under_of fault inp w)) /\
  (base_bounds (session_state w) ->
   base_bounds (session_state (step_under_of fault inp w))).
Proof.
  rewrite step_under_eq.
  assert (Keep : counters_step (session_state w) (session_state w) /\
                 (base_bounds (session_state w) ->
                  base_bounds (session_state w))).
  { split; [|auto]. right. split; [lia|now left]. }
  destruct (api_key inp); [|exact Keep].
  destruct (generate_next_frame LogisticRegression fit predict_proba inp
              (bootstrapped w)) as (_ & Hs & Ha & Hn).
  cbn [bootstrapped session_state] in Hs, Ha, Hn.
  assert (Hb1 : base_bounds (session_state w) ->
                base_bounds
                  (session_state (snd (generate inp (bootstrapped w))))).
  { unfold base_bounds. now rewrite Hs, Ha, Hn. }
  destruct (generate inp (bootstrapped w)) as [[[]|e] w1]; cbn [snd] in *.
  - destruct (quiz_page_under_session fault inp w1) as [H1 H2].
    split.
    + unfold counters_step in *. now rewrite <- Hs, <- Hn.
    + intros Hb. apply H2, Hb1, Hb.
  - split; [|exact Hb1]. right. split; [lia|]. left. exact Hn.
Qed.

Lemma history_base_bounds (b : bool) (w : World) :
  history_in b w -> base_bounds (session_state w).
Proof.
  induction 1 as [fs|fault inp b w _ IH].
  - unfold base_bounds, MAX_QUESTIONS. cbn.
    repeat split; try lia; try discriminate.
  - now apply step_under_session.
Qed.

(** The histories without a fault are the worlds of [reachable]. *)
Lemma history_no_fault (w : World) :
  history_in false w <-> reachable_in w.
Proof.
  split.
  - intros H. remember false as b eqn:Hb. induction H as [fs|fault inp b w H IH].
    + constructor.
    + apply orb_false_iff in Hb as [-> Hf].
      destruct fault; try discriminate.
      rewrite step_under_no_fault. constructor. now apply IH.
  - induction 1 as [fs|inp w _ IH].
    + constructor.
    + rewrite <- step_under_no_fault.
      apply (history_step _ _ _ NoFault inp false w IH).
Qed.

(** C3, as the code has it. At every point a session can be
    observed, whatever raised in the submit handler,
    0 <= score and 0 <= num_questions <= MAX_QUESTIONS, and [answered]
    is true only below [MAX_QUESTIONS]. As long as no run was faulty,
    that is no submission raised between the increment of the score
    and the assignment of [answered],
    score <= num_questions + p <= MAX_QUESTIONS, where p is 1 while
    the question on display is answered and 0 otherwise: the submit
    handler counts a correct answer at once, the next-question button
    counts the question only when it is left. Then, whenever
    [answered] is false, 0 <= score <= num_questions <= MAX_QUESTIONS. *)
Theorem score_bounds_unless_submit_raised (b : bool) (w : World) :
  history_in b w ->
  let s := session_state w in
  (0 <= score s /\
   0 <= num_questions s <= MAX_QUESTIONS /\
   (answered s = true -> num_questions s < MAX_QUESTIONS)) /\
  (b = false ->
   score s <= num_questions s + pending s /\
   num_questions s + pending s <= MAX_QUESTIONS /\
   (answered s = false -> spec_invariant s)).
Proof.
  intros H s. subst s. split; [exact (history_base_bounds b w H)|].
  intros ->. apply history_no_fault in H.
  destruct (reachable_bounds _ fit predict_proba w H) as (H0 & Hn & Hs & Hm).
  split; [exact Hs|]. split; [exact Hm|].
  intros Ha. unfold spec_invariant, pending in *. rewrite Ha in *. lia.
Qed.

(** X4. In a run in which nothing raises between the increment of
    the score and the assignment of [answered], the score moves with
    the log: either the session is reset and no row is added, or the
    score grows by exactly the outcomes of the rows added; the number
    of questions stays or grows by one, and when it grows the question
    is cleared and [answered] is false. In any run, also one in which
    line 411 or line 414 raises, the session is reset or the score
    stays or grows by one, with the same moves of the number of
    questions. *)
Theorem score_moves_with_log (fault : Fault) (inp : Inputs) (w : World) :
  let s := session_state w in
  let w' := step_under_of fault inp w in
  (fault = NoFault ->
   exists added,
     log_file w' = Some (rows_of (log_file w) ++ added) /\
     counters_move s (session_state w') added) /\
  counters_step s (session_state w').
Proof.
  intros s w'. split.
  - intros ->. unfold w'. rewrite step_under_no_fault.
    destruct (step_effect LogisticRegression fit predict_proba inp w)
      as (added & Hf & _ & _ & Hmove).
    now exists added.
  - apply step_under_session.
Qed.

(** X15. The feedback of the completion page follows the score: the
    first message from 5 points on, the second for 4 points, the
    third below. At every point a session can be observed the
    percentage shown is at least 0; it is at most 100 as long as no
    submission raised between the increment of the score and the
    assignment of [answered]. *)
Theorem final_feedback_follows_score (b : bool) (w : World) :
  history_in b w ->
  let final_score := score (session_state w) in
  final_feedback final_score
  = (if 5 <=? final_score then
       "You're ready for more advanced historical topics!"
     else if 4 <=? final_score then
       "Keep studying to master all the important details!"
     else "Focus on the basics and you'll improve quickly!") /\
  (0 <= final_percentage final_score)%Q /\
  (b = false -> (final_percentage final_score <= 100)%Q).
Proof.
  intros H final_score.
  destruct (history_base_bounds b w H) as (H0 & _ & _).
  fold final_score in H0. split; [|split].
  - unfold final_feedback, final_percentage, Qle_bool, MAX_QUESTIONS. cbn.
    destruct (Z.leb_spec 5 final_score), (Z.leb_spec 4 final_score);
      destruct (Z.leb_spec 480 (final_score * 1 * 100 * 1));
      destruct (Z.leb_spec 360 (final_score * 1 * 100 * 1));
      try lia; reflexivity.
  - unfold final_percentage, MAX_QUESTIONS, Qle. cbn. lia.
  - intros ->. apply history_no_fault in H.
    destruct (reachable_bounds _ fit predict_proba w H) as (_ & _ & Hs & Hm).
    fold final_score in Hs.
    assert (final_score <= 6) by (unfold MAX_QUESTIONS in Hm; lia).
    unfold final_percentage, MAX_QUESTIONS, Qle. cbn. lia.
Qed.

(** X16. At every point a session can be observed, when the sidebar
    shows its figures the progress passed to the progress bar lies in
    (0, 1] and the accuracy is at least 0. As long as no submission
    raised between the increment of the score and the assignment of
    [answered], the accuracy is at most 200 percent: the score may be
    one ahead of the number of questions counted. *)
Theorem sidebar_figures_in_range (b : bool) (w : World)
    (accuracy progress : Q) :
  history_in b w ->
  sidebar (session_state w) = Some (accuracy, progress) ->
  (0 < progress /\ progress <= 1 /\ 0 <= accuracy)%Q /\
  (b = false -> (accuracy <= 200)%Q).
Proof.
  intros H. destruct (history_base_bounds b w H) as (H0 & [Hn Hm] & _).
  unfold sidebar, MAX_QUESTIONS in *.
  destruct (Z.ltb_spec 0 (num_questions (session_state w))) as [Hp|Hp];
    [|discriminate].
  intros [= <- <-]. split.
  - destruct (num_questions (session_state w)) as [|n|n]; try lia.
    unfold Qlt, Qle, Qdiv, Qmult, Qinv. cbn. repeat split; lia.
  - intros ->. apply history_no_fault in H.
    destruct (reachable_bounds _ fit predict_proba w H) as (_ & _ & Hs & _).
    unfold pending in Hs.
    assert (Hb : score (session_state w)
                 <= 2 * num_questions (session_state w))
      by (destruct (answered (session_state w)); lia).
    destruct (num_questions (session_state w)) as [|n|n]; try lia.
    unfold Qle, Qdiv, Qmult, Qinv. cbn. lia.
Qed.

End FaultyRunProperties.

(** ** The choice a submission carries *)


(* ================================================================== *)
(** * The log through the CSV reader *)
(* ================================================================== *)

Lemma row_ok_written (n : Z) (r : ResponseRecord) :
  row_ok n r -> row_written r.
Proof. intros H. now exists n. Qed.

Section CsvLogProperties.

Variable reparse : list ResponseRecord -> list ResponseRecord.

(** The rows the script writes are read back as they were written:
    nine fixed topic and difficulty texts, ids made of them, integer
    outcomes and choices. *)
Hypothesis reparse_written :
  forall rows, Forall row_written rows -> reparse rows = rows.

Variable LogisticRegression : Type.
Variable fit : list (list Q) -> list Z -> result LogisticRegression.
Variable predict_proba :
  LogisticRegression -> list (list Q) -> result (list (list Q)).

Local Abbreviation step_of := (step LogisticRegression fit predict_proba).

(** On a log of rows the script wrote, reading through the CSV
    reader is reading the rows, and [log_result_as] is [log_result]. *)
Lemma read_csv_as_written (fs : LogStore) :
  Forall row_written (rows_of fs) ->
  read_csv_as reparse fs = read_csv fs.
Proof.
  destruct fs as [rows|]; [|reflexivity]. cbn. intros H.
  now rewrite reparse_written.
Qed.

Lemma log_result_as_written (t d : string) (ac ch : Z) (qid : string)
    (fs : LogStore) :
  Forall row_written (rows_of fs) ->
  log_result_as reparse t d ac ch qid fs = log_result t d ac ch qid fs.
Proof.
  intros H. unfold log_result_as, log_result.
  now rewrite read_csv_as_written.
Qed.

(** C6, as the code has it. On a log whose rows the script wrote
    itself (or an empty or absent one), logging a record [r] the
    script writes and reading the log back gives the rows read before
    followed by [r]: one row more, [r] in the last position, the
    earlier rows unchanged and in order, one more occurrence of [r]
    than before (exactly one when no equal row was logged before).
    From such a log and a session as the script keeps it, no run
    removes or changes a row: the log after the run is the log before
    it followed by at most one row, all of them rows the script
    wrote, and it is read back as such. Rows the CSV reader reads
    otherwise than they were written are not covered. *)
Theorem log_result_appends_written_row (fs : LogStore) (t d : string)
    (ac ch : Z) (qid : string) :
  let r := mkRecord t d ac ch qid in
  let rows := rows_of fs in
  Forall row_written rows ->
  row_written r ->
  read_csv_as reparse (init_log_file fs) = Ok rows /\
  (fs' <- log_result_as reparse t d ac ch qid (init_log_file fs) ;;
   read_csv_as reparse fs')
  = Ok (rows ++ [r]) /\
  List.length (rows ++ [r]) = S (List.length rows) /\
  nth_error (rows ++ [r]) (List.length rows) = Some r /\
  firstn (List.length rows) (rows ++ [r]) = rows /\
  count_occ ResponseRecord_eq_dec (rows ++ [r]) r
  = S (count_occ ResponseRecord_eq_dec rows r) /\
  (~ In r rows -> count_occ ResponseRecord_eq_dec (rows ++ [r]) r = 1%nat) /\
  (forall inp w,
     session_ok (session_state w) ->
     Forall row_written (rows_of (log_file w)) ->
     exists added,
       log_file (step_of inp w) = Some (rows_of (log_file w) ++ added) /\
       (List.length added <= 1)%nat /\
       Forall row_written (rows_of (log_file w) ++ added) /\
       read_csv_as reparse (log_file (step_of inp w))
       = Ok (rows_of (log_file w) ++ added)).
Proof.
  intros r rows Hrows Hr.
  assert (Hall : Forall row_written (rows ++ [r])).
  { apply Forall_app. split; [exact Hrows|]. now constructor. }
  assert (Hinit : init_log_file fs = Some rows).
  { unfold rows. now destruct fs. }
  pose proof (count_occ_appended rows r) as C.
  split; [|split; [|split; [|split; [|split; [|split; [|split]]]]]].
  - rewrite Hinit. cbn. now rewrite reparse_written.
  - rewrite Hinit. unfold log_result_as. cbn.
    rewrite (reparse_written rows Hrows). fold r.
    now rewrite reparse_written.
  - rewrite length_app. simpl. lia.
  - rewrite nth_error_app2 by lia. now rewrite Nat.sub_diag.
  - rewrite firstn_app, Nat.sub_diag, firstn_all. simpl.
    now rewrite app_nil_r.
  - exact C.
  - intros Hn. rewrite C.
    apply (count_occ_not_In ResponseRecord_eq_dec) in Hn. now rewrite Hn.
  - intros inp w Hs Hw.
    destruct (step_effect LogisticRegression fit predict_proba inp w)
      as (added & Hf & Hl & Hok & _).
    exists added. split; [exact Hf|]. split; [exact Hl|].
    assert (Ha : Forall row_written (rows_of (log_file w) ++ added)).
    { apply Forall_app. split; [exact Hw|].
      eapply Forall_impl; [|exact (Hok Hs)].
      intros a. apply row_ok_written. }
    split; [exact Ha|].
    rewrite Hf. cbn. now rewrite reparse_written.
Qed.

End CsvLogProperties.

(** ** The reader of the examples *)

Lemma pandas_keeps_text (col : list string) :
  Forall (fun s => Pandas.is_na s = false /\ Pandas.is_integer s = false)
         col ->
  Pandas.reparse_column col = col.
Proof.
  intros H. unfold Pandas.reparse_column.
  assert (Hp : filter (fun s => negb (Pandas.is_na s)) col = col).
  { induction H as [|s col [Hs _] _ IH]; cbn [filter]; [reflexivity|].
    rewrite Hs. cbn [negb]. now f_equal. }
  rewrite Hp.
  assert (Hn : match col with
               | [] => false
               | _ :: _ => forallb Pandas.is_integer col
               end = false).
  { destruct H as [|s col [_ Hs] _]; [reflexivity|].
    cbn [forallb]. now rewrite Hs. }
  rewrite Hn. clear Hp Hn.
  induction H as [|s col [Hs _] _ IH]; cbn [map]; [reflexivity|].
  rewrite Hs. now f_equal.
Qed.

Lemma pandas_rebuild_same (rows : list ResponseRecord) :
  Pandas.rebuild rows (map topic rows) (map difficulty rows)
                 (map question_id rows) = rows.
Proof.
  induction rows as [|[t d ac ch qid] rows IH]; cbn; [reflexivity|].
  now f_equal.
Qed.

Lemma written_text_is_kept (r : ResponseRecord) :
  row_written r ->
  (Pandas.is_na (topic r) = false /\ Pandas.is_integer (topic r) = false) /\
  (Pandas.is_na (difficulty r) = false /\
   Pandas.is_integer (difficulty r) = false) /\
  (Pandas.is_na (question_id r) = false /\
   Pandas.is_integer (question_id r) = false).
Proof.
  intros (n & Hc & _ & _ & Hid).
  apply in_combinations in Hc as [Ht Hd]. rewrite Hid.
  unfold topics in Ht. unfold difficulties in Hd. simpl in Ht, Hd.
  destruct Ht as [<-|[<-|[<-|[]]]];
    destruct Hd as [<-|[<-|[<-|[]]]]; repeat split; reflexivity.
Qed.

Lemma pandas_reparse_written (rows : list ResponseRecord) :
  Forall row_written rows -> Pandas.reparse rows = rows.
Proof.
  intros H. unfold Pandas.reparse.
  rewrite !pandas_keeps_text.
  - apply pandas_rebuild_same.
  - apply Forall_map. eapply Forall_impl; [|exact H].
    intros r Hr. apply (written_text_is_kept r Hr).
  - apply Forall_map. eapply Forall_impl; [|exact H].
    intros r Hr. apply (written_text_is_kept r Hr).
  - apply Forall_map. eapply Forall_impl; [|exact H].
    intros r Hr. apply (written_text_is_kept r Hr).
Qed.

(* ================================================================== *)
(** * Examples of faulty runs and of the CSV reader *)
(* ================================================================== *)

Lemma fault_free_answered_once :
  history Example.LinearModel Example.fit Example.predict_proba false
          FaultScenario.answered_once.
Proof.
  apply (history_step _ _ _ NoFault Example.submit_third false).
  apply (history_step _ _ _ NoFault Example.no_click false).
  apply history_init.
Defined.

Lemma fault_free_counted :
  history Example.LinearModel Example.fit Example.predict_proba false
          FaultScenario.counted.
Proof.
  apply (history_step _ _ _ NoFault Example.click_next false).
  apply fault_free_answered_once.
Defined.

(** A correct answer to a question stored without an explanation
    counts each time it is submitted: two points, no question
    counted, nothing logged, [answered] still false. *)
Example raised_submit_counts_again :
  history Example.LinearModel Example.fit Example.predict_proba true
          FaultScenario.raised_twice /\
  session_state FaultScenario.raised_twice
  = mkSession 2 (Some Example.q_data3) false 0 /\
  log_file FaultScenario.raised_twice = Some [].
Proof.
  split; [|split; reflexivity].
  apply (history_step _ _ _ FaultScenario.no_explanation
                      Example.submit_third true).
  apply (history_step _ _ _ FaultScenario.no_explanation
                      Example.submit_third false).
  apply (history_step _ _ _ NoFault Example.no_click false).
  apply history_init.
Qed.

Lemma score_bounds_unless_submit_raised_witness :
  history Example.LinearModel Example.fit Example.predict_proba false
          FaultScenario.answered_once /\
  score (session_state FaultScenario.answered_once)
  <= num_questions (session_state FaultScenario.answered_once)
     + pending (session_state FaultScenario.answered_once).
Proof.
  split; [exact fault_free_answered_once|].
  apply (score_bounds_unless_submit_raised Example.LinearModel Example.fit
           Example.predict_proba false FaultScenario.answered_once
           fault_free_answered_once).
  reflexivity.
Defined.

Lemma score_moves_with_log_witness :
  exists added,
    log_file FaultScenario.answered_once
    = Some (rows_of (log_file FaultScenario.shown) ++ added) /\
    counters_move (session_state FaultScenario.shown)
                  (session_state FaultScenario.answered_once) added.
Proof.
  apply (score_moves_with_log Example.LinearModel Example.fit
           Example.predict_proba NoFault Example.submit_third
           FaultScenario.shown).
  reflexivity.
Defined.

Lemma final_feedback_follows_score_witness :
  history Example.LinearModel Example.fit Example.predict_proba false
          FaultScenario.answered_once /\
  (final_percentage (score (session_state FaultScenario.answered_once))
   <= 100)%Q.
Proof.
  split; [exact fault_free_answered_once|].
  apply (final_feedback_follows_score Example.LinearModel Example.fit
           Example.predict_proba false FaultScenario.answered_once
           fault_free_answered_once).
  reflexivity.
Defined.

Lemma sidebar_figures_in_range_witness :
  (history Example.LinearModel Example.fit Example.predict_proba false
           FaultScenario.counted /\
   sidebar (session_state FaultScenario.counted)
   = Some (inject_Z 1 / inject_Z 1 * 100, inject_Z 1 / inject_Z 6)%Q) /\
  (inject_Z 1 / inject_Z 1 * 100 <= 200)%Q.
Proof.
  split; [split; [exact fault_free_counted|reflexivity]|].
  apply (sidebar_figures_in_range Example.LinearModel Example.fit
           Example.predict_proba false FaultScenario.counted
           (inject_Z 1 / inject_Z 1 * 100)%Q (inject_Z 1 / inject_Z 6)%Q
           fault_free_counted); reflexivity.
Defined.


(** A log someone else left, read through the reader of the
    examples: after one row is logged the old row is read back with
    an empty topic and the id 7. *)
Lemma foreign_row_is_read_back_changed :
  (fs' <- log_result_as Pandas.reparse "World War I" "Easy" 0 2
                        "World War I_Easy_3" (Some Pandas.foreign_log) ;;
   read_csv_as Pandas.reparse fs')
  = Ok [mkRecord "" "Easy" 1 1 "7"; FaultScenario.new_row] /\
  [mkRecord "" "Easy" 1 1 "7"; FaultScenario.new_row]
  <> Pandas.foreign_log ++ [FaultScenario.new_row].
Proof.
  split; [reflexivity|]. discriminate.
Qed.

Lemma log3_written : Forall row_written Example.log3.
Proof.
  repeat constructor.
  - exists 0. repeat split; try discriminate.
    + left. reflexivity.
    + now right.
  - exists 1. repeat split; try discriminate.
    + left. reflexivity.
    + now left.
  - exists 2. repeat split; try discriminate.
    + do 5 right. left. reflexivity.
    + now right.
Defined.

Lemma new_row_written : row_written FaultScenario.new_row.
Proof.
  exists 3. repeat split; try discriminate.
  - left. reflexivity.
  - now left.
Defined.

Lemma log_result_appends_written_row_witness :
  (Forall row_written Example.log3 /\ row_written FaultScenario.new_row) /\
  (fs' <- log_result_as Pandas.reparse "World War I" "Easy" 0 2
                        "World War I_Easy_3"
                        (init_log_file (Some Example.log3)) ;;
   read_csv_as Pandas.reparse fs')
  = Ok (Example.log3 ++ [FaultScenario.new_row]).
Proof.
  split; [split; [exact log3_written|exact new_row_written]|].
  apply (log_result_appends_written_row Pandas.reparse pandas_reparse_written
           Example.LinearModel Example.fit Example.predict_proba
           (Some Example.log3) "World War I" "Easy" 0 2 "World War I_Easy_3"
           log3_written new_row_written).
Defined.
